(** * GitHubSync: a shallow embedding of [src/github_sync.py]

    The controller [GitHubSync] keeps a run counter in a local file and issues
    remote calls through a PyGithub [Repository] object.  The embedding keeps
    the controller's fields, the counter file, the log and the sequence of
    remote calls in one explicit state, threads it through a small
    state-and-exception monad, and takes the remote platform as an oracle
    that answers each call with a value or with an exception. *)

From Stdlib Require Import ZArith NArith String Ascii List Bool Lia.
From Stdlib Require Import SpecFloat DecimalString DecimalZ.
Import ListNotations.

Local Open Scope string_scope.
Local Open Scope Z_scope.

(* ================================================================= *)
(** ** Python values used by the source *)

Module Py.

(** Exceptions, by class.  [GithubException] stands for the class and its
    subclasses (what [except GithubException] catches); [OtherException] is
    any class outside the ones named here, e.g. a network error raised by the
    HTTP layer under PyGithub. *)
Inductive exn :=
| GithubException (text : string)
| ZeroDivisionError (text : string)
| ValueError (text : string)
| OverflowError (text : string)
| UnicodeDecodeError (text : string)
| OtherException (text : string).

(** [str(e)] as the f-strings of the log lines print it. *)
Definition exn_str (e : exn) : string :=
  match e with
  | GithubException t | ZeroDivisionError t | ValueError t
  | OverflowError t | UnicodeDecodeError t | OtherException t => t
  end.

Definition is_GithubException (e : exn) : bool :=
  match e with GithubException _ => true | _ => false end.

Inductive result (A : Type) :=
| Return (a : A)
| Raise (e : exn).
Arguments Return {A} a.
Arguments Raise {A} e.

(** *** Strings *)

Definition nl : string := String (ascii_of_nat 10) EmptyString.

(** ["\n".join(lines)] *)
Fixpoint join_lines (ls : list string) : string :=
  match ls with
  | [] => ""
  | [l] => l
  | l :: rest => l ++ nl ++ join_lines rest
  end.

(** [s[:n]] on a string of one-byte characters. *)
Definition prefix_slice (n : nat) (s : string) : string := substring 0 n s.

Fixpoint zeros (n : nat) : string :=
  match n with O => "" | S k => String "0" (zeros k) end.

(** [%0wd] for a non-negative number already printed as [s]. *)
Definition zfill (w : nat) (s : string) : string :=
  zeros (w - String.length s) ++ s.

(** Number of line feeds of a text, that is, of its terminated lines. *)
Fixpoint rows (s : string) : nat :=
  match s with
  | EmptyString => O
  | String c rest =>
      if Ascii.eqb c (ascii_of_nat 10) then S (rows rest) else rows rest
  end.



(** *** Integers: [str(int)], [int(str)], [%] *)

Definition str_int (z : Z) : string := NilZero.string_of_int (Z.to_int z).

(** White space as [int] skips it around a number: tab, line feed,
    vertical tab, form feed, carriage return and space. *)
Definition is_space (c : ascii) : bool :=
  let n := N_of_ascii c in
  (((9 <=? n) && (n <=? 13)) || (n =? 32))%N.

Fixpoint lstrip (s : string) : string :=
  match s with
  | String c rest => if is_space c then lstrip rest else s
  | EmptyString => s
  end.

Fixpoint rstrip (s : string) : string :=
  match s with
  | EmptyString => EmptyString
  | String c rest =>
      match rstrip rest with
      | EmptyString => if is_space c then EmptyString else String c EmptyString
      | r => String c r
      end
  end.

Definition is_digit (c : ascii) : bool := let n := N_of_ascii c in ((48 <=? n) && (n <=? 57))%N.

Fixpoint all_digits (s : string) : bool :=
  match s with
  | EmptyString => true
  | String c rest => is_digit c && all_digits rest
  end.

Fixpoint is_ascii (s : string) : bool :=
  match s with
  | EmptyString => true
  | String c rest => (N_of_ascii c <? 128)%N && is_ascii rest
  end.

Fixpoint contains_char (c : ascii) (s : string) : bool :=
  match s with
  | EmptyString => false
  | String d rest => Ascii.eqb c d || contains_char c rest
  end.

Definition hex_digit (n : N) : ascii :=
  if (n <? 10)%N then ascii_of_N (48 + n) else ascii_of_N (87 + n).

(** One character of [repr(s)] between quotes [quote]. *)
Definition repr_char (quote c : ascii) : string :=
  let n := N_of_ascii c in
  if Ascii.eqb c quote || Ascii.eqb c "\" then String "\" (String c EmptyString)
  else if (n =? 9)%N then "\t"
  else if (n =? 10)%N then "\n"
  else if (n =? 13)%N then "\r"
  else if ((n <? 32) || (n =? 127))%N then
    String "\" (String "x" (String (hex_digit (n / 16)) (String (hex_digit (n mod 16))
      EmptyString)))
  else String c EmptyString.

Fixpoint repr_chars (quote : ascii) (s : string) : string :=
  match s with
  | EmptyString => EmptyString
  | String c rest => repr_char quote c ++ repr_chars quote rest
  end.

(** [repr(s)] of an ASCII text: in single quotes, or in double quotes when
    the text has a single quote and no double quote. *)
Definition py_repr (s : string) : string :=
  let single := "'"%char in
  let double := ascii_of_nat 34 in
  let quote :=
    if contains_char single s && negb (contains_char double s) then double
    else single in
  String quote (repr_chars quote s ++ String quote EmptyString).

(** The digits of a numeral in which single underscores may stand between
    digits; [after_digit] tells that the character before was a digit. *)
Fixpoint digits_of (after_digit : bool) (s : string) : option string :=
  match s with
  | EmptyString => if after_digit then Some EmptyString else None
  | String c rest =>
      if is_digit c then option_map (String c) (digits_of true rest)
      else if Ascii.eqb c "_" && after_digit then digits_of false rest
      else None
  end.

(** [int(s)] for ASCII text: white space around, an optional sign, decimal
    digits with single underscores between them; anything else raises
    [ValueError] with the text's [repr], cut at 200 characters.  Text with
    characters beyond ASCII is outside this definition, and so is the
    interpreter's optional limit on the number of digits. *)
Definition int_str (s : string) : result Z :=
  let bad := Raise (ValueError ("invalid literal for int() with base 10: "
                                ++ prefix_slice 200 (py_repr s))) in
  let digits (neg : bool) (d : string) :=
    match digits_of false d with
    | Some ds =>
        match NilZero.uint_of_string ds with
        | Some u => Return (if neg then - Z.of_uint u else Z.of_uint u)
        | None => bad
        end
    | None => bad
    end in
  match rstrip (lstrip s) with
  | EmptyString => bad
  | String c d as body =>
      if Ascii.eqb c "-" then digits true d
      else if Ascii.eqb c "+" then digits false d
      else digits false body
  end.

(** ASCII text of at most 640 characters: on such text [int] depends on no
    setting of the interpreter. *)
Definition plain_text (t : string) : bool :=
  is_ascii t && (String.length t <=? 640)%nat.

(** [a % b]: the remainder has the sign of the divisor, as [Z.modulo]. *)
Definition int_mod (a b : Z) : result Z :=
  if b =? 0 then Raise (ZeroDivisionError "integer modulo by zero")
  else Return (a mod b).

(** *** Floats: IEEE 754 binary64 *)

Definition float := spec_float.
Definition prec : Z := 53.
Definition emax : Z := 1024.

(** [float(z)], rounding to nearest even; [OverflowError] when out of range. *)
Definition float_of_int (z : Z) : result float :=
  match binary_normalize prec emax z 0 false with
  | S754_infinity _ => Raise (OverflowError "int too large to convert to float")
  | f => Return f
  end.

(** A decimal literal [n/d] with [n] and [d] exactly representable: the
    correctly rounded quotient is the nearest binary64 number. *)
Definition float_lit (n d : Z) : float :=
  SFdiv prec emax (binary_normalize prec emax n 0 false)
                  (binary_normalize prec emax d 0 false).

Definition float_sub (x y : float) : float := SFsub prec emax x y.
Definition float_mul (x y : float) : float := SFmul prec emax x y.

Definition float_is_zero (x : float) : bool :=
  match x with S754_zero _ => true | _ => false end.

(** [x / y] raises on a zero divisor of either sign. *)
Definition float_div (x y : float) : result float :=
  if float_is_zero y then Raise (ZeroDivisionError "float division by zero")
  else Return (SFdiv prec emax x y).

(** [x >= y]; false when either side is NaN. *)
Definition float_ge (x y : float) : bool := SFleb y x.

(** Round-half-even quotient of a non-negative [n] by a positive [d]. *)
Definition div_half_even (n d : Z) : Z :=
  let q := n / d in
  let r := n mod d in
  match (2 * r) ?= d with
  | Lt => q
  | Gt => q + 1
  | Eq => if Z.even q then q else q + 1
  end.

(** [format(x, ".<p>f")] with [p >= 1]: the exact binary value rounded to
    [p] decimals, ties to even, the sign kept also when the digits are all
    zero. *)
Definition format_f (p : nat) (x : float) : string :=
  let fixed (neg : bool) (n : Z) :=
    let scale := 10 ^ Z.of_nat p in
    (if neg then "-" else "") ++ str_int (n / scale) ++ "."
      ++ zfill p (str_int (n mod scale)) in
  match x with
  | S754_nan => "nan"
  | S754_infinity s => if s then "-inf" else "inf"
  | S754_zero s => fixed s 0
  | S754_finite s m e =>
      let num := Z.pos m * 10 ^ Z.of_nat p in
      fixed s (if 0 <=? e then num * 2 ^ e else div_half_even num (2 ^ (- e)))
  end.

(** *** Metric values and dictionaries *)

(** The values a metrics mapping holds: numbers and strings. *)
Inductive scalar :=
| PyInt (z : Z)
| PyFloat (f : float)
| PyStr (s : string).

(** A [dict] with string keys, in insertion order, each key once. *)
Definition dict := list (string * scalar).

(** [d.get(key, default)] *)
Fixpoint dict_get (d : dict) (key : string) (default : scalar) : scalar :=
  match d with
  | [] => default
  | (k, v) :: rest => if String.eqb k key then v else dict_get rest key default
  end.

(** [key in d] *)
Definition dict_mem (d : dict) (key : string) : bool :=
  existsb (fun kv => String.eqb (fst kv) key) d.


(** What [json.dumps] is given. *)
#[local] Unset Elimination Schemes.
Inductive json :=
| JVal (v : scalar)
| JObj (fields : list (string * json)).
#[local] Set Elimination Schemes.

Definition json_of_dict (d : dict) : json :=
  JObj (map (fun kv => (fst kv, JVal (snd kv))) d).

(** *** [datetime] *)

Record datetime := {
  year : Z; month : Z; day : Z;
  hour : Z; minute : Z; second : Z; microsecond : Z
}.

Definition pad (w : nat) (z : Z) : string := zfill w (str_int z).

(** [dt.isoformat()] of a naive datetime. *)
Definition isoformat (dt : datetime) : string :=
  pad 4 (year dt) ++ "-" ++ pad 2 (month dt) ++ "-" ++ pad 2 (day dt) ++ "T"
    ++ pad 2 (hour dt) ++ ":" ++ pad 2 (minute dt) ++ ":" ++ pad 2 (second dt)
    ++ (if microsecond dt =? 0 then "" else "." ++ pad 6 (microsecond dt)).

(** [dt.strftime("%Y%m%d_%H%M%S")] *)
Definition strftime_compact (dt : datetime) : string :=
  pad 4 (year dt) ++ pad 2 (month dt) ++ pad 2 (day dt) ++ "_"
    ++ pad 2 (hour dt) ++ pad 2 (minute dt) ++ pad 2 (second dt).

(** *** [bytes.decode('utf-8')]

    Byte strings and texts are both [string]s here, a text being its UTF-8
    encoding; decoding checks well-formedness and changes no byte. *)

Definition in_range (lo hi : N) (c : ascii) : bool :=
  let n := N_of_ascii c in ((lo <=? n) && (n <=? hi))%N.

Definition is_cont : ascii -> bool := in_range 128 191.

Fixpoint utf8_valid (s : string) : bool :=
  match s with
  | EmptyString => true
  | String c0 s1 =>
      let b := N_of_ascii c0 in
      if (b <=? 127)%N then utf8_valid s1
      else if in_range 194 223 c0 then
        match s1 with
        | String c1 s2 => is_cont c1 && utf8_valid s2
        | _ => false
        end
      else if in_range 224 239 c0 then
        match s1 with
        | String c1 (String c2 s3) =>
            (if (b =? 224)%N then in_range 160 191 c1
             else if (b =? 237)%N then in_range 128 159 c1
             else is_cont c1)
            && is_cont c2 && utf8_valid s3
        | _ => false
        end
      else if in_range 240 244 c0 then
        match s1 with
        | String c1 (String c2 (String c3 s4)) =>
            (if (b =? 240)%N then in_range 144 191 c1
             else if (b =? 244)%N then in_range 128 143 c1
             else is_cont c1)
            && is_cont c2 && is_cont c3 && utf8_valid s4
        | _ => false
        end
      else false
  end.

Definition decode_utf8 (b : string) : result string :=
  if utf8_valid b then Return b
  else Raise (UnicodeDecodeError "'utf-8' codec can't decode byte").

End Py.
Import Py.

(* ================================================================= *)
(** ** The remote platform (PyGithub's [Repository]) *)

Module Commit.
Record t := { sha : string }.
End Commit.

Module ContentFile.
Record t := { path : string; decoded_content : string; sha : string }.
End ContentFile.

Module Branch.
Record t := { commit : Commit.t }.
End Branch.

Module Issue.
Record t := { number : Z }.
End Issue.

Module PullRequest.
Record t := { number : Z }.
End PullRequest.

(** The calls the controller makes, with their arguments. *)
Inductive request :=
| get_repo (full_name : string)
| create_file (path message content branch : string)
| get_contents (path ref : string)
| update_file (path message content sha branch : string)
| create_issue (title body : string) (labels assignees : list string)
| get_branch (branch : string)
| create_git_ref (ref sha : string)
| create_pull (title body head base : string)
| create_review_request (pr : PullRequest.t) (reviewers : list string).

(** What the source reads of each call's value: [result['commit']] of a
    file write, the [ContentFile], the [Issue], the [Branch], the
    [PullRequest]; nothing of the others. *)
Definition response (q : request) : Type :=
  match q with
  | get_repo _ => unit
  | create_file _ _ _ _ => Commit.t
  | get_contents _ _ => ContentFile.t
  | update_file _ _ _ _ _ => Commit.t
  | create_issue _ _ _ _ => Issue.t
  | get_branch _ => Branch.t
  | create_git_ref _ _ => unit
  | create_pull _ _ _ _ => PullRequest.t
  | create_review_request _ _ => unit
  end.

(** Calls that ask the platform to change something. *)
Definition is_write (q : request) : bool :=
  match q with
  | get_repo _ | get_contents _ _ | get_branch _ => false
  | _ => true
  end.

(** The platform answers a call, knowing the calls made before it. *)
Definition platform := list request -> forall q : request, result (response q).

(* ================================================================= *)
(** ** State, environment and the monad of the methods *)

Record GitHubSync := {
  repo_name : string;
  branch : string;
  auto_commit : bool;
  commit_interval : Z;
  run_count : Z
}.

Inductive level := INFO | WARNING | ERROR.

Record state := {
  self : GitHubSync;
  count_file : option string;       (* text of [.github_run_count], if it exists *)
  calls : list request;             (* remote calls made so far, oldest first *)
  logs : list (level * string)      (* log records, oldest first *)
}.

Record env := {
  remote : platform;
  now : datetime;                   (* what [datetime.now()] returns *)
  getenv : string -> option string  (* [os.getenv] *)
}.

Definition M (A : Type) : Type := env -> state -> state * result A.

Definition ret {A} (a : A) : M A := fun _ s => (s, Return a).

Definition raise {A} (e : exn) : M A := fun _ s => (s, Raise e).

Definition bind {A B} (c : M A) (k : A -> M B) : M B :=
  fun ev s =>
    match c ev s with
    | (s', Return a) => k a ev s'
    | (s', Raise e) => (s', Raise e)
    end.

Declare Scope py_scope.
Delimit Scope py_scope with py.
Notation "x <- c ;; k" := (bind c (fun x => k))
  (at level 100, c at next level, right associativity) : py_scope.
Notation "c ;;; k" := (bind c (fun _ => k))
  (at level 100, right associativity) : py_scope.
Local Open Scope py_scope.

(** A pure computation that may raise. *)
Definition lift {A} (r : result A) : M A := fun _ s => (s, r).

(** [try: body  except <classes> as e: handler e]; [catches] tells the
    classes of the clause, [fun _ => true] for a bare [except:]. *)
Definition try_except {A} (body : M A) (catches : exn -> bool)
    (handler : exn -> M A) : M A :=
  fun ev s =>
    match body ev s with
    | (s', Raise e) => if catches e then handler e ev s' else (s', Raise e)
    | out => out
    end.

Definition get_self : M GitHubSync := fun _ s => (s, Return (self s)).

Definition set_self (o : GitHubSync) : M unit :=
  fun _ s =>
    ({| self := o; count_file := count_file s; calls := calls s; logs := logs s |},
     Return tt).

Definition datetime_now : M datetime := fun ev s => (s, Return (now ev)).

Definition os_getenv (name : string) : M (option string) :=
  fun ev s => (s, Return (getenv ev name)).

(** [Path(".github_run_count")], the one local file the source touches:
    [exists] with [read_text], and [write_text]. *)
Definition read_count_file : M (option string) :=
  fun _ s => (s, Return (count_file s)).

Definition write_count_file (text : string) : M unit :=
  fun _ s =>
    ({| self := self s; count_file := Some text; calls := calls s; logs := logs s |},
     Return tt).

Definition logger (l : level) (msg : string) : M unit :=
  fun _ s =>
    ({| self := self s; count_file := count_file s; calls := calls s;
        logs := logs s ++ [(l, msg)] |},
     Return tt).

(** A remote call: recorded, then answered by the platform. *)
Definition call (q : request) : M (response q) :=
  fun ev s =>
    ({| self := self s; count_file := count_file s; calls := calls s ++ [q];
        logs := logs s |},
     remote ev (calls s) q).

(* ================================================================= *)
(** ** Test doubles *)

Module Sample.

Definition clock : datetime :=
  {| year := 2024; month := 1; day := 15; hour := 10; minute := 30; second := 0;
     microsecond := 0 |}.

Definition table : string :=
  "timestamp,benchmark_score,token_usage,execution_time,forgetting_score" ++ nl
  ++ "2024-01-14T09:00:00,97,1200,3,0" ++ nl.

(** A platform that accepts every call. *)
Definition accepting : platform :=
  fun _ q =>
    match q return result (response q) with
    | get_repo _ => Return tt
    | create_file _ _ _ _ => Return {| Commit.sha := "5f2a9c1e7b3d4680" |}
    | get_contents p _ =>
        Return {| ContentFile.path := p; ContentFile.decoded_content := table;
                  ContentFile.sha := "9b1d7e22" |}
    | update_file _ _ _ _ _ => Return {| Commit.sha := "77aa01bc93de5512" |}
    | create_issue _ _ _ _ => Return {| Issue.number := 42 |}
    | get_branch _ => Return {| Branch.commit := {| Commit.sha := "c4e8a0d1" |} |}
    | create_git_ref _ _ => Return tt
    | create_pull _ _ _ _ => Return {| PullRequest.number := 7 |}
    | create_review_request _ _ => Return tt
    end.

(** A platform that raises [e] on the calls [bad] selects. *)
Definition refusing (bad : request -> bool) (e : exn) : platform :=
  fun hist q => if bad q then Raise e else accepting hist q.


Definition is_create_git_ref (q : request) : bool :=
  match q with create_git_ref _ _ => true | _ => false end.

Definition world (p : platform) : env :=
  {| remote := p; now := clock; getenv := fun _ => None |}.

(** A controller on branch [main] with the given flag, interval and count,
    the counter file in step with the count. *)
Definition controller (flag : bool) (interval count : Z) : state :=
  {| self := {| repo_name := "GilbertKwak/ai-multiagent-framework-v4";
                branch := "main"; auto_commit := flag;
                commit_interval := interval; run_count := count |};
     count_file := if count =? 0 then None else Some (str_int count);
     calls := []; logs := [] |}.

(** Stand-ins for [repr] and [json.dumps] in concrete runs. *)
Definition repr6 : float -> string := format_f 6.
Definition dumps0 : json -> string := fun _ => "{}".

Definition not_found : exn := GithubException "404 Not Found".

End Sample.

(* ================================================================= *)
(** ** The methods of [GitHubSync] *)

Section Methods.

(** Two library functions are taken as they are: [repr] of a float (the
    shortest text that reads back as the same number) and [json.dumps(_,
    indent=2)], total on numbers, strings and mappings of them. *)
Variable float_repr : float -> string.
Variable json_dumps : json -> string.

(** [str(v)], what an f-string field without format prints. *)
Definition py_str (v : scalar) : string :=
  match v with
  | PyInt z => str_int z
  | PyFloat f => float_repr f
  | PyStr s => s
  end.

(** [format(v, ".<p>f")]: an [int] is converted to [float] first, a [str]
    has no such format. *)
Definition py_format_f (p : nat) (v : scalar) : result string :=
  match v with
  | PyInt z =>
      match float_of_int z with
      | Return f => Return (format_f p f)
      | Raise e => Raise e
      end
  | PyFloat f => Return (format_f p f)
  | PyStr _ => Raise (ValueError "Unknown format code 'f' for object of type 'str'")
  end.

(** [_load_run_count] *)
Definition _load_run_count : M Z :=
  text <- read_count_file ;;
  match text with
  | Some t => lift (int_str t)
  | None => ret 0
  end.

(** [__init__]: the fields are assigned in the order of the source. *)
Definition __init__ (repo : string) (token : option string) (branch0 : string)
    (auto_commit0 : bool) (commit_interval0 : Z) : M unit :=
  o <- get_self ;;
  set_self {| repo_name := repo; branch := branch0; auto_commit := auto_commit0;
              commit_interval := commit_interval0; run_count := run_count o |} ;;;
  token' <- match token with
            | Some (String _ _) => ret token
            | _ => os_getenv "GITHUB_TOKEN"
            end ;;
  match token' with
  | Some (String _ _) =>
      call (get_repo repo) ;;;
      n <- _load_run_count ;;
      o <- get_self ;;
      set_self {| repo_name := repo_name o; branch := branch o;
                  auto_commit := auto_commit o;
                  commit_interval := commit_interval o; run_count := n |} ;;;
      logger INFO ("✅ GitHub Sync initialized: " ++ repo ++ " (branch: " ++ branch0 ++ ")")
  | _ =>
      raise (ValueError
        "GitHub token required. Set GITHUB_TOKEN env var or pass token param.")
  end.

(** [_save_run_count] *)
Definition _save_run_count : M unit :=
  o <- get_self ;;
  write_count_file (str_int (run_count o)).

(** [increment_run] *)
Definition increment_run : M Z :=
  o <- get_self ;;
  set_self {| repo_name := repo_name o; branch := branch o;
              auto_commit := auto_commit o;
              commit_interval := commit_interval o;
              run_count := run_count o + 1 |} ;;;
  _save_run_count ;;;
  o <- get_self ;;
  logger INFO ("📊 Run #" ++ str_int (run_count o)) ;;;
  ret (run_count o).

(** [should_commit]: [and] evaluates the remainder only when the flag is set. *)
Definition should_commit : M bool :=
  o <- get_self ;;
  if auto_commit o then
    r <- lift (int_mod (run_count o) (commit_interval o)) ;;
    ret (r =? 0)
  else ret false.

Definition execution_log_path (run_number : Z) (timestamp : string) : string :=
  "logs/execution_" ++ str_int run_number ++ "_" ++ timestamp ++ ".json".

Definition execution_log_content (run_number : Z) (timestamp : string)
    (metrics : dict) (log_content : string) : json :=
  JObj [("run_number", JVal (PyInt run_number));
        ("timestamp", JVal (PyStr timestamp));
        ("metrics", json_of_dict metrics);
        ("log", JVal (PyStr log_content))].

Definition execution_log_message (run_number : Z) (metrics : dict) : string :=
  "📊 Auto-commit: Run #" ++ str_int run_number ++ nl ++ nl
  ++ "- Benchmark Score: " ++ py_str (dict_get metrics "benchmark_score" (PyStr "N/A")) ++ nl
  ++ "- Token Efficiency: " ++ py_str (dict_get metrics "token_efficiency" (PyStr "N/A")) ++ nl
  ++ "- Execution Time: " ++ py_str (dict_get metrics "execution_time" (PyStr "N/A")) ++ nl
  ++ "- Forgetting Score: " ++ py_str (dict_get metrics "forgetting_score" (PyStr "N/A")).

(** [commit_execution_log] *)
Definition commit_execution_log (run_number : Z) (metrics : dict)
    (log_content : string) : M (option string) :=
  due <- should_commit ;;
  if negb due then
    o <- get_self ;;
    logger INFO ("⏸️ Skipping commit (interval: " ++ str_int (commit_interval o) ++ ")") ;;;
    ret None
  else
    dt <- datetime_now ;;
    let timestamp := isoformat dt in
    let filename := execution_log_path run_number timestamp in
    let content := execution_log_content run_number timestamp metrics log_content in
    try_except
      (let message := execution_log_message run_number metrics in
       o <- get_self ;;
       result <- call (create_file filename message (json_dumps content) (branch o)) ;;
       logger INFO ("✅ Committed: " ++ filename ++ " (SHA: "
                    ++ prefix_slice 7 (Commit.sha result) ++ ")") ;;;
       ret (Some (Commit.sha result)))
      is_GithubException
      (fun e => logger ERROR ("❌ Commit failed: " ++ exn_str e) ;;; ret None).

Definition benchmark_path (timestamp : string) : string :=
  "benchmarks/results_" ++ timestamp ++ ".json".

Definition benchmark_message (results : dict) : string :=
  "🏆 Benchmark Results" ++ nl ++ nl
  ++ "- Overall Score: " ++ py_str (dict_get results "overall_score" (PyStr "N/A")) ++ nl
  ++ "- Pass Rate: " ++ py_str (dict_get results "pass_rate" (PyStr "N/A")) ++ nl
  ++ "- Token Efficiency: " ++ py_str (dict_get results "token_efficiency" (PyStr "N/A")).

(** [commit_benchmark_results] *)
Definition commit_benchmark_results (results : dict) : M (option string) :=
  dt <- datetime_now ;;
  let timestamp := isoformat dt in
  let filename := benchmark_path timestamp in
  try_except
    (let message := benchmark_message results in
     o <- get_self ;;
     result <- call (create_file filename message
                       (json_dumps (json_of_dict results)) (branch o)) ;;
     logger INFO ("✅ Benchmark committed: " ++ filename) ;;;
     ret (Some (Commit.sha result)))
    is_GithubException
    (fun e => logger ERROR ("❌ Benchmark commit failed: " ++ exn_str e) ;;; ret None).

Definition dashboard_path : string := "performance/metrics_history.csv".

Definition dashboard_header : string :=
  "timestamp,benchmark_score,token_usage,execution_time,forgetting_score" ++ nl.

Definition dashboard_row (timestamp : string) (metrics : dict) : string :=
  timestamp
  ++ "," ++ py_str (dict_get metrics "benchmark_score" (PyInt 0))
  ++ "," ++ py_str (dict_get metrics "token_usage" (PyInt 0))
  ++ "," ++ py_str (dict_get metrics "execution_time" (PyInt 0))
  ++ "," ++ py_str (dict_get metrics "forgetting_score" (PyInt 0))
  ++ nl.

(** [update_performance_dashboard]: the inner clause is a bare [except:]. *)
Definition update_performance_dashboard (metrics : dict) : M (option string) :=
  let filename := dashboard_path in
  dt <- datetime_now ;;
  let timestamp := isoformat dt in
  let row := dashboard_row timestamp metrics in
  try_except
    (result <-
       try_except
         (o <- get_self ;;
          file <- call (get_contents filename (branch o)) ;;
          content <- lift (decode_utf8 (ContentFile.decoded_content file)) ;;
          let new_content := content ++ row in
          let sha := ContentFile.sha file in
          o <- get_self ;;
          call (update_file filename ("📊 Update performance metrics: " ++ timestamp)
                  new_content sha (branch o)))
         (fun _ => true)
         (fun _ =>
          let header := dashboard_header in
          o <- get_self ;;
          call (create_file filename "🆕 Initialize performance dashboard"
                  (header ++ row) (branch o))) ;;
     logger INFO ("✅ Dashboard updated: " ++ filename) ;;;
     ret (Some (Commit.sha result)))
    is_GithubException
    (fun e => logger ERROR ("❌ Dashboard update failed: " ++ exn_str e) ;;; ret None).

(** [(baseline - current) / baseline * 100] for a non-zero baseline. *)
Definition degradation_percent (baseline current : float) : float :=
  float_mul (SFdiv prec emax (float_sub baseline current) baseline)
            (binary_normalize prec emax 100 0 false).

Definition issue_title (degradation : float) : string :=
  "⚠️ Performance Degradation Detected: " ++ format_f 1 degradation ++ "% drop".

Definition issue_body (baseline current degradation : float) : string :=
  join_lines [
    "";
    "## 성능 저하 감지";
    "";
    "**기준 점수**: " ++ format_f 4 baseline;
    "**현재 점수**: " ++ format_f 4 current;
    "**저하율**: " ++ format_f 2 degradation ++ "%";
    "";
    "### 확인 필요 사항";
    "";
    "1. 최근 프롬프트 변경사항 검토";
    "2. 벤치마크 로그 확인";
    "3. 필요시 롤백 고려";
    "";
    "### 자동 조치";
    "";
    "- 시스템은 자동으로 이전 버전으로 롤백되었습니다.";
    "- 성능 로그: `logs/execution_latest.json`";
    "- 벤치마크 결과: `benchmarks/results_latest.json`";
    "";
    "---";
    "";
    "*이 이슈는 자동으로 생성되었습니다.*";
    "        " ].

Definition issue_labels : list string := ["bug"; "auto-generated"; "priority-high"].
Definition issue_assignees : list string := ["GilbertKwak"].

(** [create_performance_issue_if_degraded]: the quotient is computed before
    the [try] block. *)
Definition create_performance_issue_if_degraded (baseline current threshold : float)
    : M (option Z) :=
  if float_ge current (float_sub baseline threshold) then ret None
  else
    quotient <- lift (float_div (float_sub baseline current) baseline) ;;
    hundred <- lift (float_of_int 100) ;;
    let degradation := float_mul quotient hundred in
    let title := issue_title degradation in
    let body := issue_body baseline current degradation in
    try_except
      (issue <- call (create_issue title body issue_labels issue_assignees) ;;
       logger WARNING ("⚠️ Issue created: #" ++ str_int (Issue.number issue)
                       ++ " - " ++ title) ;;;
       ret (Some (Issue.number issue)))
      is_GithubException
      (fun e => logger ERROR ("❌ Issue creation failed: " ++ exn_str e) ;;; ret None).

Definition prompt_path : string := "prompts/v4.0-complete-integration.xml".

Definition pull_title (improvement : string) : string :=
  "✨ Auto-optimized prompt: " ++ improvement ++ "% better".

Definition pull_body (performance_improvement : dict) : string :=
  join_lines [
    "";
    "## 자동 최적화 결과";
    "";
    "이 PR은 성능 분석 기반으로 자동 생성되었습니다.";
    "";
    "### 성능 개선";
    "";
    "- **벤치마크 점수**: "
      ++ py_str (dict_get performance_improvement "benchmark_score" (PyStr "N/A"));
    "- **토큰 효율**: "
      ++ py_str (dict_get performance_improvement "token_efficiency" (PyStr "N/A"));
    "- **실행 시간**: "
      ++ py_str (dict_get performance_improvement "execution_time" (PyStr "N/A"));
    "";
    "### 변경 사항";
    "";
    "- 프롬프트 최적화";
    "- 메모리 관리 개선";
    "- 토큰 절감 기법 적용";
    "";
    "### 테스트 결과";
    "";
    "✅ OpenEnv-Turing 벤치마크 통과";
    "✅ 성능 회귀 테스트 통과";
    "";
    "---";
    "";
    "*이 PR은 자동으로 생성되었습니다. 리뷰 후 병합하세요.*";
    "            " ].

Definition reviewers : list string := ["GilbertKwak"].

(** [create_optimization_pull_request] *)
Definition create_optimization_pull_request (optimized_prompt : string)
    (performance_improvement : dict) : M (option Z) :=
  dt <- datetime_now ;;
  let timestamp := strftime_compact dt in
  let branch_name := "auto-optimize-" ++ timestamp in
  try_except
    (o <- get_self ;;
     base_branch <- call (get_branch (branch o)) ;;
     call (create_git_ref ("refs/heads/" ++ branch_name)
             (Commit.sha (Branch.commit base_branch))) ;;;
     file <- call (get_contents prompt_path branch_name) ;;
     call (update_file (ContentFile.path file) "✨ Auto-optimized prompt"
             optimized_prompt (ContentFile.sha file) branch_name) ;;;
     improvement <-
       lift (py_format_f 1 (dict_get performance_improvement "improvement" (PyInt 0))) ;;
     let title := pull_title improvement in
     let body := pull_body performance_improvement in
     o <- get_self ;;
     pr <- call (create_pull title body branch_name (branch o)) ;;
     call (create_review_request pr reviewers) ;;;
     logger INFO ("✨ PR created: #" ++ str_int (PullRequest.number pr)
                  ++ " - " ++ title) ;;;
     ret (Some (PullRequest.number pr)))
    is_GithubException
    (fun e => logger ERROR ("❌ PR creation failed: " ++ exn_str e) ;;; ret None).

(** [m] calls of [increment_run] in a row, with the value of each. *)
Fixpoint increment_runs (m : nat) : M (list Z) :=
  match m with
  | O => ret []
  | S k => r <- increment_run ;; rs <- increment_runs k ;; ret (r :: rs)
  end.

(** The calls a computation adds to the ones made before it. *)
Definition new_calls {A} (c : M A) (ev : env) (s : state) : list request :=
  skipn (length (calls s)) (calls (fst (c ev s))).

(** Every call of [cs] but the last was answered with a value, [hist]
    being the calls made before [cs]. *)
Fixpoint stops_at_failure (ev : env) (hist cs : list request) : bool :=
  match cs with
  | [] => true
  | q :: rest =>
      match rest with
      | [] => true
      | _ :: _ =>
          match remote ev hist q with
          | Return _ => stops_at_failure ev (hist ++ [q]) rest
          | Raise _ => false
          end
      end
  end.

(** The exception raised by the last call of [cs], if it raised. *)
Fixpoint last_failure (ev : env) (hist cs : list request) : option exn :=
  match cs with
  | [] => None
  | q :: rest =>
      match rest with
      | [] => match remote ev hist q with Raise e => Some e | Return _ => None end
      | _ :: _ => last_failure ev (hist ++ [q]) rest
      end
  end.

(** The gate of the data model: a computation issues a remote write only
    in a state where auto-commit is on and the counter is a multiple of the
    interval. *)
Definition write_gated {A} (c : M A) : Prop :=
  forall ev s q,
    In q (new_calls c ev s) -> is_write q = true ->
    auto_commit (self s) = true /\
    run_count (self s) mod commit_interval (self s) = 0.

(** A computation out of which no [GithubException] comes. *)
Definition contains_github {A} (c : M A) : Prop :=
  forall ev s e, snd (c ev s) = Raise e -> is_GithubException e = false.

(** A computation that leaves the controller's fields and the counter file
    as they were. *)
Definition keeps_fields {A} (c : M A) : Prop :=
  forall ev s,
    self (fst (c ev s)) = self s /\ count_file (fst (c ev s)) = count_file s.

(** *** Callers, and what reads as what *)

(** A token that [if not token] lets through: present and not empty. *)
Definition truthy (t : option string) : bool :=
  match t with Some (String _ _) => true | _ => false end.

(** The counter file reads as [n]: what [_load_run_count] would return. *)
Definition file_reads (s : state) (n : Z) : Prop :=
  match count_file s with
  | Some t => int_str t = Return n
  | None => n = 0
  end.

(** The counter file is absent and [n] is 0, or it holds a plain text that
    [int] reads as [n]. *)
Definition file_holds (s : state) (n : Z) : Prop :=
  match count_file s with
  | Some t => plain_text t = true /\ int_str t = Return n
  | None => n = 0
  end.

(** The counter file and the [run_count] field agree. *)
Definition in_step (s : state) : Prop := file_reads s (run_count (self s)).

(** The metrics of the script at the end of the source. *)
Definition test_metrics : dict :=
  [("benchmark_score", PyFloat (float_lit 97 100));
   ("token_efficiency", PyFloat (float_lit 62 100));
   ("execution_time", PyStr "3.2 min");
   ("forgetting_score", PyFloat (float_lit 18 1000))].

Definition main_repo : string := "GilbertKwak/ai-multiagent-framework-v4".

(** The script under [if __name__ == "__main__":]: construct, count the
    run, commit when due, print.  The value is the line printed. *)
Definition main : M string :=
  __init__ main_repo None "main" true 10 ;;;
  run_num <- increment_run ;;
  due <- should_commit ;;
  (if due then
     commit_execution_log run_num test_metrics "Test execution" ;;;
     update_performance_dashboard test_metrics ;;;
     ret tt
   else ret tt) ;;;
  ret "✅ GitHub sync test completed!".

(** A caller's use of a constructed controller: any of the public methods,
    one after the other, the caller going on whatever a method returned or
    raised. *)
Inductive command :=
| IncrementRun
| ShouldCommit
| CommitExecutionLog (run_number : Z) (metrics : dict) (log_content : string)
| CommitBenchmarkResults (results : dict)
| UpdatePerformanceDashboard (metrics : dict)
| CreateIssueIfDegraded (baseline current threshold : float)
| CreateOptimizationPullRequest (optimized_prompt : string)
    (performance_improvement : dict).

Definition perform (c : command) (ev : env) (s : state) : state :=
  match c with
  | IncrementRun => fst (increment_run ev s)
  | ShouldCommit => fst (should_commit ev s)
  | CommitExecutionLog n m l => fst (commit_execution_log n m l ev s)
  | CommitBenchmarkResults r => fst (commit_benchmark_results r ev s)
  | UpdatePerformanceDashboard m => fst (update_performance_dashboard m ev s)
  | CreateIssueIfDegraded b c t =>
      fst (create_performance_issue_if_degraded b c t ev s)
  | CreateOptimizationPullRequest p d =>
      fst (create_optimization_pull_request p d ev s)
  end.

Fixpoint perform_all (cs : list command) (ev : env) (s : state) : state :=
  match cs with
  | [] => s
  | c :: rest => perform_all rest ev (perform c ev s)
  end.

Definition is_increment (c : command) : bool :=
  match c with IncrementRun => true | _ => false end.

(** A computation that only adds to the record of remote calls. *)
Definition appends_calls {A} (c : M A) : Prop :=
  forall ev s, exists l, calls (fst (c ev s)) = (calls s ++ l)%list.

(* ================================================================= *)
(** ** Properties *)

Ltac run_step :=
  cbv beta iota delta
    [bind ret raise lift try_except get_self set_self datetime_now os_getenv
     read_count_file write_count_file logger call];
  cbn [fst snd self count_file calls logs repo_name branch auto_commit
       commit_interval run_count].

(** *** The Python values on examples *)

Example str_int_120 : str_int (-120) = "-120".
Proof. reflexivity. Qed.

Example format_f_ties :
  format_f 1 (float_lit 25 100) = "0.2" /\
  format_f 1 (float_lit 35 100) = "0.3" /\
  format_f 2 (float_lit (-1) 1000) = "-0.00" /\
  format_f 4 (float_lit 96 100) = "0.9600".
Proof. vm_compute. repeat split. Qed.

Example isoformat_example :
  isoformat {| year := 2024; month := 3; day := 9; hour := 7; minute := 5;
               second := 0; microsecond := 1200 |} = "2024-03-09T07:05:00.001200".
Proof. reflexivity. Qed.

Lemma new_calls_app {A} (c : M A) ev s l :
  calls (fst (c ev s)) = (calls s ++ l)%list -> new_calls c ev s = l.
Proof.
  intros H. unfold new_calls. rewrite H.
  rewrite skipn_app, skipn_all, Nat.sub_diag. reflexivity.
Qed.

(** C1: for a positive interval, [should_commit] answers
    [auto_commit and (run_count mod commit_interval == 0)], a function of
    these three fields alone, and returns the state it was given: no remote
    call, no write, no log record. *)
Theorem should_commit_spec (ev : env) (s : state) :
  0 < commit_interval (self s) ->
  should_commit ev s =
    (s, Return (auto_commit (self s)
                && (run_count (self s) mod commit_interval (self s) =? 0)))
  /\ (snd (should_commit ev s) = Return true <->
      auto_commit (self s) = true /\
      run_count (self s) mod commit_interval (self s) = 0).
Proof.
  intros Hk.
  assert (E : should_commit ev s =
    (s, Return (auto_commit (self s)
                && (run_count (self s) mod commit_interval (self s) =? 0)))).
  { unfold should_commit, int_mod. run_step.
    destruct (auto_commit (self s)); [|reflexivity].
    destruct (Z.eqb_spec (commit_interval (self s)) 0) as [E0|_]; [lia|].
    reflexivity. }
  split; [exact E|].
  rewrite E. cbn [snd]. split.
  - intros [= H]. apply andb_true_iff in H. destruct H as [Ha Hm].
    split; [exact Ha | now apply Z.eqb_eq].
  - intros [Ha Hm]. rewrite Ha, Hm. reflexivity.
Qed.


(** *** The counter file: what [_save_run_count] writes, [int] reads back *)

Lemma all_digits_string_of_uint (d : Decimal.uint) :
  all_digits (NilEmpty.string_of_uint d) = true.
Proof. induction d; cbn; auto. Qed.

Lemma digit_not_space (c : ascii) : is_digit c = true -> is_space c = false.
Proof.
  unfold is_digit, is_space. intros H.
  apply andb_true_iff in H. destruct H as [H1 H2].
  apply N.leb_le in H1. apply N.leb_le in H2.
  apply orb_false_iff. split.
  - apply andb_false_iff. right. apply N.leb_gt. lia.
  - apply N.eqb_neq. lia.
Qed.

Lemma rstrip_digits (s : string) : all_digits s = true -> rstrip s = s.
Proof.
  induction s as [|c rest IH]; [reflexivity|].
  cbn [all_digits rstrip]. intros H. apply andb_true_iff in H.
  destruct H as [Hc Hr]. rewrite (IH Hr).
  destruct rest; [|reflexivity].
  now rewrite (digit_not_space c Hc).
Qed.

Lemma lstrip_digits (s : string) : all_digits s = true -> lstrip s = s.
Proof.
  destruct s as [|c rest]; [reflexivity|].
  cbn [all_digits lstrip]. intros H. apply andb_true_iff in H.
  destruct H as [Hc _]. now rewrite (digit_not_space c Hc).
Qed.

Lemma digit_not_sign (c : ascii) :
  is_digit c = true -> Ascii.eqb c "-" = false /\ Ascii.eqb c "+" = false.
Proof.
  intros H. split; apply Ascii.eqb_neq; intros ->; discriminate H.
Qed.

Lemma digits_of_all_digits (s : string) :
  all_digits s = true ->
  forall after_digit : bool,
    s <> EmptyString \/ after_digit = true -> digits_of after_digit s = Some s.
Proof.
  induction s as [|c rest IH]; intros Hd b Hb.
  - destruct Hb as [Hb|Hb]; [now elim Hb|]. now rewrite Hb.
  - cbn [all_digits] in Hd. apply andb_true_iff in Hd. destruct Hd as [Hc Hr].
    cbn [digits_of]. rewrite Hc. rewrite (IH Hr true) by now right. reflexivity.
Qed.

Lemma int_str_digits (neg : bool) (p : positive) :
  int_str ((if neg then "-" else "") ++ NilEmpty.string_of_uint (Pos.to_uint p))
  = Return (if neg then Z.neg p else Z.pos p).
Proof.
  pose proof (all_digits_string_of_uint (Pos.to_uint p)) as Hd.
  pose proof (DecimalPos.Unsigned.to_uint_nonnil p) as Hn.
  assert (Hu : NilZero.uint_of_string (NilEmpty.string_of_uint (Pos.to_uint p))
               = Some (Pos.to_uint p)).
  { pose proof (NilZero.usu _ Hn) as U. unfold NilZero.string_of_uint in U.
    destruct (Pos.to_uint p); try exact U. now elim Hn. }
  assert (Hne : NilEmpty.string_of_uint (Pos.to_uint p) <> EmptyString).
  { intros E. rewrite E in Hu. discriminate Hu. }
  assert (Hz : Z.of_uint (Pos.to_uint p) = Z.pos p).
  { unfold Z.of_uint. now rewrite DecimalPos.Unsigned.of_to. }
  pose proof (digits_of_all_digits _ Hd false (or_introl Hne)) as Hds.
  unfold int_str.
  destruct neg.
  - change ("-" ++ NilEmpty.string_of_uint (Pos.to_uint p))
      with (String "-" (NilEmpty.string_of_uint (Pos.to_uint p))).
    cbn [lstrip]. change (is_space "-") with false. cbv iota.
    assert (Hr : rstrip (String "-" (NilEmpty.string_of_uint (Pos.to_uint p)))
                 = String "-" (NilEmpty.string_of_uint (Pos.to_uint p))).
    { cbn [rstrip]. rewrite (rstrip_digits _ Hd).
      destruct (NilEmpty.string_of_uint (Pos.to_uint p)); reflexivity. }
    rewrite Hr. cbn [Ascii.eqb Bool.eqb]. rewrite Hds, Hu, Hz. reflexivity.
  - change ("" ++ NilEmpty.string_of_uint (Pos.to_uint p))
      with (NilEmpty.string_of_uint (Pos.to_uint p)).
    rewrite (lstrip_digits _ Hd), (rstrip_digits _ Hd).
    destruct (NilEmpty.string_of_uint (Pos.to_uint p)) as [|c rest] eqn:E.
    + now elim Hne.
    + pose proof Hd as Hd'.
      cbn [all_digits] in Hd'. apply andb_true_iff in Hd'. destruct Hd' as [Hc _].
      destruct (digit_not_sign c Hc) as [-> ->]. rewrite Hds, Hu, Hz. reflexivity.
Qed.

(** Reading back what [str] printed gives the number again. *)
Lemma int_str_str_int (z : Z) : int_str (str_int z) = Return z.
Proof.
  destruct z as [|p|p].
  - reflexivity.
  - pose proof (int_str_digits false p) as H. cbn [append] in H.
    unfold str_int. cbn [Z.to_int NilZero.string_of_int].
    unfold NilZero.string_of_uint.
    pose proof (DecimalPos.Unsigned.to_uint_nonnil p) as Hn.
    destruct (Pos.to_uint p); try exact H. now elim Hn.
  - pose proof (int_str_digits true p) as H.
    unfold str_int. cbn [Z.to_int NilZero.string_of_int].
    unfold NilZero.string_of_uint.
    pose proof (DecimalPos.Unsigned.to_uint_nonnil p) as Hn.
    destruct (Pos.to_uint p); try exact H. now elim Hn.
Qed.


(** *** [increment_run] *)

Lemma increment_run_eq (ev : env) (s : state) :
  increment_run ev s =
    ({| self := {| repo_name := repo_name (self s); branch := branch (self s);
                   auto_commit := auto_commit (self s);
                   commit_interval := commit_interval (self s);
                   run_count := run_count (self s) + 1 |};
        count_file := Some (str_int (run_count (self s) + 1));
        calls := calls s;
        logs := logs s ++ [(INFO, "📊 Run #" ++ str_int (run_count (self s) + 1))] |},
     Return (run_count (self s) + 1)).
Proof. reflexivity. Qed.

Lemma load_run_count_saved (ev : env) (s : state) (n : Z) :
  count_file s = Some (str_int n) -> _load_run_count ev s = (s, Return n).
Proof.
  intros H. unfold _load_run_count. run_step. rewrite H.
  run_step. now rewrite int_str_str_int.
Qed.

Lemma increment_runs_from (ev : env) (m : nat) :
  forall s : state,
    _load_run_count ev s = (s, Return (run_count (self s))) ->
    let s' := fst (increment_runs m ev s) in
    snd (increment_runs m ev s)
      = Return (map (fun i => run_count (self s) + Z.of_nat i) (seq 1 m))
    /\ run_count (self s') = run_count (self s) + Z.of_nat m
    /\ _load_run_count ev s' = (s', Return (run_count (self s'))).
Proof.
  induction m as [|k IH]; intros s Hload.
  - cbn. rewrite Z.add_0_r. split; [reflexivity|]. split; [reflexivity|exact Hload].
  - cbv zeta. cbn [increment_runs]. unfold bind. rewrite increment_run_eq.
    set (s1 := {| self := _; count_file := _; calls := _; logs := _ |}).
    assert (H1 : _load_run_count ev s1 = (s1, Return (run_count (self s1)))).
    { apply load_run_count_saved. reflexivity. }
    specialize (IH s1 H1). cbv zeta in IH. destruct IH as (Hr & Hc & Hl).
    destruct (increment_runs k ev s1) as [s2 r2].
    cbn [fst snd] in *. subst r2. unfold ret. cbn [fst snd].
    change (run_count (self s1)) with (run_count (self s) + 1) in *.
    split; [|split].
    + f_equal. cbn [seq map]. f_equal; try lia.
      rewrite <- (seq_shift k 1), map_map. apply map_ext. intros i. lia.
    + lia.
    + exact Hl.
Qed.

(** C8: from a fresh counter of 0 (the counter file absent or holding 0, the
    field read from it), [m] calls of [increment_run] return [1, 2, ..., m]
    in this order, leave the field at [m], and the counter file reads back
    as [m]. *)
Theorem increment_run_m_times (ev : env) (s : state) (m : nat) :
  run_count (self s) = 0 ->
  _load_run_count ev s = (s, Return 0) ->
  let s' := fst (increment_runs m ev s) in
  snd (increment_runs m ev s) = Return (map Z.of_nat (seq 1 m))
  /\ run_count (self s') = Z.of_nat m
  /\ _load_run_count ev s' = (s', Return (Z.of_nat m)).
Proof.
  intros H0 Hload. rewrite <- H0 in Hload.
  destruct (increment_runs_from ev m s Hload) as (Hr & Hc & Hl).
  rewrite H0 in Hr, Hc. cbn [Z.add] in Hc. cbv zeta.
  rewrite Hc in Hl. split; [|split; [exact Hc|exact Hl]].
  rewrite Hr. reflexivity.
Qed.

(** Each call reads the counter, adds one, persists the new value and
    returns it. *)
Lemma increment_run_once (ev : env) (s : state) :
  let s' := fst (increment_run ev s) in
  snd (increment_run ev s) = Return (run_count (self s) + 1)
  /\ run_count (self s') = run_count (self s) + 1
  /\ count_file s' = Some (str_int (run_count (self s) + 1))
  /\ calls s' = calls s.
Proof. rewrite increment_run_eq. repeat split. Qed.


(** *** Frame: what leaves the controller's fields alone *)

Create HintDb keeps discriminated.

Lemma keeps_ret {A} (a : A) : keeps_fields (ret a).
Proof. intros ev s. split; reflexivity. Qed.

Lemma keeps_raise {A} (e : exn) : keeps_fields (@raise A e).
Proof. intros ev s. split; reflexivity. Qed.

Lemma keeps_lift {A} (r : result A) : keeps_fields (lift r).
Proof. intros ev s. split; reflexivity. Qed.

Lemma keeps_get_self : keeps_fields get_self.
Proof. intros ev s. split; reflexivity. Qed.

Lemma keeps_datetime_now : keeps_fields datetime_now.
Proof. intros ev s. split; reflexivity. Qed.

Lemma keeps_logger (l : level) (msg : string) : keeps_fields (logger l msg).
Proof. intros ev s. split; reflexivity. Qed.

Lemma keeps_call (q : request) : keeps_fields (call q).
Proof. intros ev s. split; reflexivity. Qed.

Lemma keeps_bind {A B} (c : M A) (k : A -> M B) :
  keeps_fields c -> (forall a, keeps_fields (k a)) -> keeps_fields (bind c k).
Proof.
  intros Hc Hk ev s. unfold bind.
  destruct (Hc ev s) as [H1 H2].
  destruct (c ev s) as [s1 [a|e]]; cbn [fst] in *.
  - destruct (Hk a ev s1) as [H3 H4]. split; congruence.
  - split; assumption.
Qed.

Lemma keeps_try_except {A} (body : M A) (catches : exn -> bool) (h : exn -> M A) :
  keeps_fields body -> (forall e, keeps_fields (h e)) ->
  keeps_fields (try_except body catches h).
Proof.
  intros Hb Hh ev s. unfold try_except.
  destruct (Hb ev s) as [H1 H2].
  destruct (body ev s) as [s1 [a|e]]; cbn [fst] in *.
  - split; assumption.
  - destruct (catches e); cbn [fst].
    + destruct (Hh e ev s1) as [H3 H4]. split; congruence.
    + split; assumption.
Qed.

#[local] Hint Resolve keeps_ret keeps_raise keeps_lift keeps_get_self
  keeps_datetime_now keeps_logger keeps_call : keeps.

Ltac keeps :=
  repeat first
    [ apply keeps_bind; [|intro]
    | apply keeps_try_except; [|intro]
    | solve [auto with keeps]
    | match goal with
      | |- keeps_fields (if ?b then _ else _) => destruct b
      | |- keeps_fields (let _ := _ in _) => cbv zeta
      end ].

Lemma keeps_should_commit : keeps_fields should_commit.
Proof. unfold should_commit. keeps. Qed.

Lemma keeps_commit_execution_log run_number metrics log_content :
  keeps_fields (commit_execution_log run_number metrics log_content).
Proof. unfold commit_execution_log. keeps. Qed.

Lemma keeps_commit_benchmark_results results :
  keeps_fields (commit_benchmark_results results).
Proof. unfold commit_benchmark_results. keeps. Qed.

Lemma keeps_update_performance_dashboard metrics :
  keeps_fields (update_performance_dashboard metrics).
Proof. unfold update_performance_dashboard. keeps. Qed.

Lemma keeps_create_performance_issue_if_degraded baseline current threshold :
  keeps_fields (create_performance_issue_if_degraded baseline current threshold).
Proof. unfold create_performance_issue_if_degraded. keeps. Qed.

Lemma keeps_create_optimization_pull_request optimized_prompt performance_improvement :
  keeps_fields (create_optimization_pull_request optimized_prompt performance_improvement).
Proof. unfold create_optimization_pull_request. keeps. Qed.

(** C10: [increment_run] adds exactly one to the run counter and leaves the
    other four fields as they were; every other public method returns a
    state with the same five fields (and the same counter file), whatever
    the platform answers and whether the method returns or raises. *)
Theorem only_increment_run_changes_counter :
  (forall ev s,
     let o := self s in
     let o' := self (fst (increment_run ev s)) in
     run_count o' = run_count o + 1 /\ repo_name o' = repo_name o /\
     branch o' = branch o /\ auto_commit o' = auto_commit o /\
     commit_interval o' = commit_interval o)
  /\ keeps_fields should_commit
  /\ (forall run_number metrics log_content,
        keeps_fields (commit_execution_log run_number metrics log_content))
  /\ (forall results, keeps_fields (commit_benchmark_results results))
  /\ (forall metrics, keeps_fields (update_performance_dashboard metrics))
  /\ (forall baseline current threshold,
        keeps_fields (create_performance_issue_if_degraded baseline current threshold))
  /\ (forall optimized_prompt performance_improvement,
        keeps_fields
          (create_optimization_pull_request optimized_prompt performance_improvement)).
Proof.
  split.
  { intros ev s. rewrite increment_run_eq. cbn. repeat split. }
  split; [exact keeps_should_commit|].
  split; [exact keeps_commit_execution_log|].
  split; [exact keeps_commit_benchmark_results|].
  split; [exact keeps_update_performance_dashboard|].
  split; [exact keeps_create_performance_issue_if_degraded|].
  exact keeps_create_optimization_pull_request.
Qed.


(** *** Which methods call the platform, and when *)

Lemma new_calls_nil {A} (c : M A) ev s :
  calls (fst (c ev s)) = calls s -> new_calls c ev s = [].
Proof.
  intros H. apply new_calls_app. now rewrite app_nil_r.
Qed.

Lemma should_commit_state (ev : env) (s : state) : fst (should_commit ev s) = s.
Proof.
  unfold should_commit, int_mod. run_step.
  destruct (auto_commit (self s)); [|reflexivity].
  destruct (commit_interval (self s) =? 0); reflexivity.
Qed.

Lemma should_commit_true (ev : env) (s : state) :
  snd (should_commit ev s) = Return true ->
  auto_commit (self s) = true /\ commit_interval (self s) <> 0 /\
  run_count (self s) mod commit_interval (self s) = 0.
Proof.
  unfold should_commit, int_mod. run_step.
  destruct (auto_commit (self s)); [|discriminate].
  destruct (Z.eqb_spec (commit_interval (self s)) 0) as [E|E]; [discriminate|].
  cbn [snd]. intros [= H]. apply Z.eqb_eq in H. auto.
Qed.

Lemma commit_execution_log_not_due (ev : env) (s : state) run_number metrics log_content :
  snd (should_commit ev s) <> Return true ->
  calls (fst (commit_execution_log run_number metrics log_content ev s)) = calls s.
Proof.
  intros H. unfold commit_execution_log, bind at 1.
  pose proof (should_commit_state ev s) as Hs.
  destruct (should_commit ev s) as [s1 [[|]|e]]; cbn [fst snd] in *; subst s1.
  - now elim H.
  - reflexivity.
  - reflexivity.
Qed.


(** C3, as the code has it: the gate of the counter and the flag guards
    [commit_execution_log]; [increment_run] and [should_commit] make no
    remote call at all. *)
Theorem remote_writes_gated :
  write_gated increment_run
  /\ write_gated should_commit
  /\ (forall run_number metrics log_content,
        write_gated (commit_execution_log run_number metrics log_content)).
Proof.
  split; [|split].
  - intros ev s q Hin _. rewrite new_calls_nil in Hin; [destruct Hin|].
    rewrite increment_run_eq. reflexivity.
  - intros ev s q Hin _. rewrite new_calls_nil in Hin; [destruct Hin|].
    now rewrite should_commit_state.
  - intros run_number metrics log_content ev s q Hin _.
    destruct (should_commit ev s) as [s1 r] eqn:E.
    assert (Hr : snd (should_commit ev s) = r) by now rewrite E.
    destruct r as [[|]|e].
    + destruct (should_commit_true ev s Hr) as (Ha & _ & Hm). auto.
    + rewrite new_calls_nil in Hin; [destruct Hin|].
      apply commit_execution_log_not_due. rewrite Hr. discriminate.
    + rewrite new_calls_nil in Hin; [destruct Hin|].
      apply commit_execution_log_not_due. rewrite Hr. discriminate.
Qed.



(** *** The dashboard table *)

Lemma rows_app (a b : string) : rows (a ++ b) = (rows a + rows b)%nat.
Proof.
  induction a as [|c a IH]; [reflexivity|].
  cbn [append rows]. rewrite IH. destruct (Ascii.eqb c _); reflexivity.
Qed.






Lemma dict_get_missing (d : dict) (key : string) (default : scalar) :
  dict_mem d key = false -> dict_get d key default = default.
Proof.
  induction d as [|[k v] rest IH]; [reflexivity|].
  cbn [dict_mem existsb dict_get fst]. intros H.
  apply orb_false_iff in H. destruct H as [Hk Hr]. rewrite Hk. now apply IH.
Qed.

Lemma rows_dashboard_row (timestamp : string) (metrics : dict) :
  rows timestamp = O ->
  (forall key, rows (py_str (dict_get metrics key (PyInt 0))) = O) ->
  rows (dashboard_row timestamp metrics) = 1%nat.
Proof.
  intros Ht Hf. unfold dashboard_row.
  repeat (rewrite rows_app || rewrite Hf || rewrite Ht). reflexivity.
Qed.










(** *** The degradation check *)

Lemma issue_check_not_degraded (ev : env) (s : state) baseline current threshold :
  float_ge current (float_sub baseline threshold) = true ->
  create_performance_issue_if_degraded baseline current threshold ev s
    = (s, Return None).
Proof.
  intros H. unfold create_performance_issue_if_degraded. rewrite H. reflexivity.
Qed.

Lemma issue_check_degraded (ev : env) (s : state) baseline current threshold :
  float_ge current (float_sub baseline threshold) = false ->
  float_is_zero baseline = false ->
  let d := degradation_percent baseline current in
  let q := create_issue (issue_title d) (issue_body baseline current d)
             issue_labels issue_assignees in
  let out := create_performance_issue_if_degraded baseline current threshold ev s in
  new_calls (create_performance_issue_if_degraded baseline current threshold) ev s = [q]
  /\ (forall i, remote ev (calls s) q = Return i ->
        snd out = Return (Some (Issue.number i)))
  /\ (forall t, remote ev (calls s) q = Raise (GithubException t) ->
        snd out = Return None).
Proof.
  intros Hg Hz. cbv zeta.
  set (q := create_issue _ _ _ _).
  assert (E : forall r,
    remote ev (calls s) q = r ->
    create_performance_issue_if_degraded baseline current threshold ev s =
      match r with
      | Return i =>
          ({| self := self s; count_file := count_file s;
              calls := (calls s ++ [q])%list;
              logs := logs s ++ [(WARNING, "⚠️ Issue created: #"
                        ++ str_int (Issue.number i) ++ " - "
                        ++ issue_title (degradation_percent baseline current))] |},
           Return (Some (Issue.number i)))
      | Raise e =>
          if is_GithubException e then
            ({| self := self s; count_file := count_file s;
                calls := (calls s ++ [q])%list;
                logs := logs s ++ [(ERROR, "❌ Issue creation failed: " ++ exn_str e)] |},
             Return None)
          else
            ({| self := self s; count_file := count_file s;
                calls := (calls s ++ [q])%list; logs := logs s |}, Raise e)
      end).
  { intros r Er. unfold create_performance_issue_if_degraded. rewrite Hg.
    unfold float_div. rewrite Hz. run_step.
    change (float_of_int 100) with (Return (binary_normalize prec emax 100 0 false)).
    run_step. fold (degradation_percent baseline current). fold q. rewrite Er.
    destruct r as [i|e]; [reflexivity|]. destruct (is_GithubException e); reflexivity. }
  split; [|split].
  - apply new_calls_app. rewrite (E _ eq_refl).
    destruct (remote ev (calls s) q) as [i|e]; [reflexivity|].
    destruct (is_GithubException e); reflexivity.
  - intros i Ei. now rewrite (E _ Ei).
  - intros t Et. now rewrite (E _ Et).
Qed.

(** The two cases of the specification's examples. *)
Example issue_check_example_096 (ev : env) (s : state) :
  create_performance_issue_if_degraded (float_lit 1 1) (float_lit 96 100) (float_lit 5 100)
    ev s = (s, Return None).
Proof. apply issue_check_not_degraded. vm_compute. reflexivity. Qed.

Example issue_check_example_090 :
  float_ge (float_lit 90 100) (float_sub (float_lit 1 1) (float_lit 5 100)) = false
  /\ issue_title (degradation_percent (float_lit 1 1) (float_lit 90 100))
     = "⚠️ Performance Degradation Detected: 10.0% drop"
  /\ format_f 2 (degradation_percent (float_lit 1 1) (float_lit 90 100)) = "10.00".
Proof. vm_compute. repeat split. Qed.

Lemma issue_check_zero_baseline (ev : env) (s : state) :
  create_performance_issue_if_degraded
    (float_lit 0 1) (float_lit (-1) 1) (float_lit 5 100) ev s
  = (s, Raise (ZeroDivisionError "float division by zero")).
Proof. reflexivity. Qed.

(** C2, at the input where the code departs from it: with a baseline of 0
    and a current score below minus the threshold, the quotient is taken
    before the [try] block and the [ZeroDivisionError] reaches the caller. *)
Theorem issue_check_raises_on_zero_baseline (ev : env) (s : state) :
  create_performance_issue_if_degraded
    (float_lit 0 1) (float_lit (-1) 1) (float_lit 5 100) ev s
  = (s, Raise (ZeroDivisionError "float division by zero")).
Proof. exact (issue_check_zero_baseline ev s). Qed.

(** C4, at the input where the code departs from it: baseline 0, current
    -1, threshold 0.05 is not in the no-degradation case, and yet no issue
    creation is requested and no value returned. *)
Theorem no_issue_requested_on_zero_baseline (ev : env) (s : state) :
  let baseline := float_lit 0 1 in
  let current := float_lit (-1) 1 in
  let threshold := float_lit 5 100 in
  let op := create_performance_issue_if_degraded baseline current threshold in
  float_ge current (float_sub baseline threshold) = false
  /\ new_calls op ev s = []
  /\ (forall v, snd (op ev s) <> Return v).
Proof.
  cbv zeta. split; [vm_compute; reflexivity|]. split.
  - apply new_calls_nil. reflexivity.
  - intros v. rewrite issue_check_zero_baseline. discriminate.
Qed.


(** *** The pull-request sequence *)

Lemma skipn_length_app {A} (h l : list A) : skipn (length h) (h ++ l) = l.
Proof. rewrite skipn_app, skipn_all, Nat.sub_diag. reflexivity. Qed.

Ltac answer :=
  match goal with
  | |- context [remote ?ev ?h ?q] =>
      let E := fresh "E" in destruct (remote ev h q) as [?|?] eqn:E
  | |- context [py_format_f ?p ?v] =>
      let E := fresh "F" in destruct (py_format_f p v) as [?|?] eqn:E
  | |- context [if is_GithubException ?e then _ else _] =>
      let E := fresh "G" in destruct (is_GithubException e) eqn:E
  end; run_step.

Ltac trace :=
  cbn [fst snd calls];
  rewrite <- ?app_assoc; rewrite ?skipn_length_app;
  cbn [app stops_at_failure last_failure];
  repeat match goal with
         | E : remote ?ev ?h ?q = _ |- context [remote ?ev ?h ?q] =>
             rewrite E; cbn [stops_at_failure last_failure]
         end.

Lemma pull_request_orderly (ev : env) (s : state) optimized_prompt performance_improvement :
  let op := create_optimization_pull_request optimized_prompt performance_improvement in
  stops_at_failure ev (calls s) (new_calls op ev s) = true
  /\ forall e, last_failure ev (calls s) (new_calls op ev s) = Some e ->
       snd (op ev s) = if is_GithubException e then Return None else Raise e.
Proof.
  cbv zeta. unfold new_calls, create_optimization_pull_request. run_step.
  repeat answer; trace.
  all: split; [reflexivity|]; intros e' H; try discriminate H.
  all: injection H as <-; match goal with G : is_GithubException _ = _ |- _ => rewrite G end.
  all: reflexivity.
Qed.


(** C7, as the code has it: in [create_optimization_pull_request], when
    [create_git_ref] raises, the calls made are the branch lookup and the
    ref creation and nothing after them (no file read, no file update, no
    pull request, no review request); the method returns [None] when the
    exception is a [GithubException], and lets an exception of any other
    class through to the caller.  At every step: a call is made only after
    all calls before it were answered, and the exception raised by the last
    call made decides the outcome in the same way; nothing is called to
    undo the steps already taken. *)
Theorem pull_request_stops_at_failed_step (ev : env) (s : state)
    (optimized_prompt : string) (performance_improvement : dict) :
  let op := create_optimization_pull_request optimized_prompt performance_improvement in
  let branch_name := "auto-optimize-" ++ strftime_compact (now ev) in
  let q1 := get_branch (branch (self s)) in
  (forall base e,
     remote ev (calls s) q1 = Return base ->
     let q2 := create_git_ref ("refs/heads/" ++ branch_name)
                 (Commit.sha (Branch.commit base)) in
     remote ev (calls s ++ [q1])%list q2 = Raise e ->
     new_calls op ev s = [q1; q2]
     /\ snd (op ev s) = if is_GithubException e then Return None else Raise e)
  /\ stops_at_failure ev (calls s) (new_calls op ev s) = true
  /\ (forall e,
        last_failure ev (calls s) (new_calls op ev s) = Some e ->
        snd (op ev s) = if is_GithubException e then Return None else Raise e).
Proof.
  cbv zeta. split; [|split].
  - intros base e E1 E2.
    assert (Hc : calls (fst (create_optimization_pull_request optimized_prompt
                               performance_improvement ev s))
                 = ((calls s ++ [get_branch (branch (self s))])
                    ++ [create_git_ref
                          ("refs/heads/" ++ "auto-optimize-" ++ strftime_compact (now ev))
                          (Commit.sha (Branch.commit base))])%list).
    { unfold create_optimization_pull_request. run_step. rewrite E1. run_step.
      rewrite E2. destruct (is_GithubException e); reflexivity. }
    split.
    + apply new_calls_app. rewrite Hc. now rewrite <- app_assoc.
    + unfold create_optimization_pull_request. run_step. rewrite E1. run_step.
      rewrite E2. destruct (is_GithubException e); reflexivity.
  - apply pull_request_orderly.
  - intros e H.
    exact (proj2 (pull_request_orderly ev s optimized_prompt
                    performance_improvement) _ H).
Qed.

(** *** What the handlers do catch *)

Create HintDb contains discriminated.

Lemma contains_ret {A} (a : A) : contains_github (ret a).
Proof. intros ev s e H. discriminate H. Qed.

Lemma contains_get_self : contains_github get_self.
Proof. intros ev s e H. discriminate H. Qed.

Lemma contains_set_self (o : GitHubSync) : contains_github (set_self o).
Proof. intros ev s e H. discriminate H. Qed.

Lemma contains_datetime_now : contains_github datetime_now.
Proof. intros ev s e H. discriminate H. Qed.

Lemma contains_logger (l : level) (msg : string) : contains_github (logger l msg).
Proof. intros ev s e H. discriminate H. Qed.

Lemma contains_write_count_file (t : string) : contains_github (write_count_file t).
Proof. intros ev s e H. discriminate H. Qed.

Lemma contains_int_mod (a b : Z) : contains_github (lift (int_mod a b)).
Proof.
  intros ev s e. unfold lift, int_mod. cbn [snd].
  destruct (b =? 0); [intros [= <-]; reflexivity|discriminate].
Qed.

Lemma contains_float_div (x y : float) : contains_github (lift (float_div x y)).
Proof.
  intros ev s e. unfold lift, float_div. cbn [snd].
  destruct (float_is_zero y); [intros [= <-]; reflexivity|discriminate].
Qed.

Lemma contains_float_of_int (z : Z) : contains_github (lift (float_of_int z)).
Proof.
  intros ev s e. unfold lift, float_of_int. cbn [snd].
  destruct (binary_normalize prec emax z 0 false);
    solve [discriminate | intros [= <-]; reflexivity].
Qed.

Lemma contains_bind {A B} (c : M A) (k : A -> M B) :
  contains_github c -> (forall a, contains_github (k a)) -> contains_github (bind c k).
Proof.
  intros Hc Hk ev s e. unfold bind.
  pose proof (Hc ev s) as H1.
  destruct (c ev s) as [s1 [a|e1]]; cbn [snd] in *.
  - apply Hk.
  - intros [= <-]. now apply H1.
Qed.

(** A handler for [GithubException] lets none through, whatever the body
    does, as long as the handler raises none itself. *)
Lemma contains_try_except {A} (body : M A) (h : exn -> M A) :
  (forall e, contains_github (h e)) ->
  contains_github (try_except body is_GithubException h).
Proof.
  intros Hh ev s e. unfold try_except.
  destruct (body ev s) as [s1 [a|e1]]; [discriminate|].
  destruct (is_GithubException e1) eqn:G.
  - apply Hh.
  - cbn [snd]. intros [= <-]. exact G.
Qed.

#[local] Hint Resolve contains_ret contains_get_self contains_set_self
  contains_datetime_now contains_logger contains_write_count_file contains_int_mod
  contains_float_div contains_float_of_int : contains.

Ltac contains :=
  repeat first
    [ apply contains_try_except; intro
    | apply contains_bind; [|intro]
    | solve [auto with contains]
    | match goal with
      | |- contains_github (if ?b then _ else _) => destruct b
      end ].

(** X14: no public method lets a [GithubException] reach its caller: an
    exception raised by any of the seven methods is of another class. *)
Lemma github_exceptions_contained :
  contains_github increment_run
  /\ contains_github should_commit
  /\ (forall run_number metrics log_content,
        contains_github (commit_execution_log run_number metrics log_content))
  /\ (forall results, contains_github (commit_benchmark_results results))
  /\ (forall metrics, contains_github (update_performance_dashboard metrics))
  /\ (forall baseline current threshold,
        contains_github
          (create_performance_issue_if_degraded baseline current threshold))
  /\ (forall optimized_prompt performance_improvement,
        contains_github
          (create_optimization_pull_request optimized_prompt performance_improvement)).
Proof.
  repeat split; intros.
  - unfold increment_run, _save_run_count. contains.
  - unfold should_commit. contains.
  - unfold commit_execution_log. contains.
  - unfold commit_benchmark_results. contains.
  - unfold update_performance_dashboard. contains.
  - unfold create_performance_issue_if_degraded. contains.
  - unfold create_optimization_pull_request. contains.
Qed.

(* ================================================================= *)
(** ** Further properties *)

(** *** Construction *)

Lemma load_run_count_reads (ev : env) (s : state) (n : Z) :
  file_reads s n -> _load_run_count ev s = (s, Return n).
Proof.
  unfold file_reads, _load_run_count. run_step.
  destruct (count_file s) as [t|]; run_step; intros H; now rewrite H.
Qed.

Lemma init_with_token (ev : env) (s : state) repo token branch0 flag k :
  truthy token = true \/ truthy (getenv ev "GITHUB_TOKEN") = true ->
  __init__ repo token branch0 flag k ev s =
    (call (get_repo repo) ;;;
     n <- _load_run_count ;;
     o <- get_self ;;
     set_self {| repo_name := repo_name o; branch := branch o;
                 auto_commit := auto_commit o;
                 commit_interval := commit_interval o; run_count := n |} ;;;
     logger INFO ("✅ GitHub Sync initialized: " ++ repo ++ " (branch: " ++ branch0 ++ ")"))
      ev
      {| self := {| repo_name := repo; branch := branch0; auto_commit := flag;
                    commit_interval := k; run_count := run_count (self s) |};
         count_file := count_file s; calls := calls s; logs := logs s |}.
Proof.
  intros H. unfold __init__.
  unfold bind at 1. unfold get_self at 1. cbv iota beta.
  unfold bind at 1. unfold set_self at 1. cbv iota beta.
  unfold bind at 1.
  destruct token as [[|c t]|]; cbn [truthy] in H.
  - destruct H as [H|H]; [discriminate|].
    unfold os_getenv. cbv iota beta.
    destruct (getenv ev "GITHUB_TOKEN") as [[|c t]|]; try discriminate H.
    reflexivity.
  - reflexivity.
  - destruct H as [H|H]; [discriminate|].
    unfold os_getenv. cbv iota beta.
    destruct (getenv ev "GITHUB_TOKEN") as [[|c t]|]; try discriminate H.
    reflexivity.
Qed.

Lemma init_run (ev : env) (s : state) repo token branch0 flag k n :
  truthy token = true \/ truthy (getenv ev "GITHUB_TOKEN") = true ->
  remote ev (calls s) (get_repo repo) = Return tt ->
  file_reads s n ->
  __init__ repo token branch0 flag k ev s =
    ({| self := {| repo_name := repo; branch := branch0; auto_commit := flag;
                   commit_interval := k; run_count := n |};
        count_file := count_file s;
        calls := calls s ++ [get_repo repo];
        logs := logs s ++ [(INFO, "✅ GitHub Sync initialized: " ++ repo
                                  ++ " (branch: " ++ branch0 ++ ")")] |},
     Return tt).
Proof.
  intros Ht Hr Hn. rewrite (init_with_token ev s repo token branch0 flag k Ht).
  unfold bind at 1. unfold call at 1. cbn [calls self count_file logs].
  rewrite Hr. cbv iota beta.
  unfold bind at 1.
  rewrite (load_run_count_reads ev _ n) by exact Hn.
  reflexivity.
Qed.

Lemma file_holds_reads (s : state) (n : Z) : file_holds s n -> file_reads s n.
Proof.
  unfold file_holds, file_reads. destruct (count_file s); [intros [_ H]; exact H|auto].
Qed.

(** X1: with a token that is present and not empty, in the argument or
    else in [GITHUB_TOKEN], and a repository the platform resolves, the
    constructor returns, having made the one call [get_repo], set the four
    configuration fields from its arguments and the counter from the
    counter file: 0 when there is no file, the number [int] reads when the
    file holds a plain text (ASCII, at most 640 characters).  File and
    field then agree. *)
Theorem init_success (ev : env) (s : state) repo token branch0 flag k n :
  truthy token = true \/ truthy (getenv ev "GITHUB_TOKEN") = true ->
  remote ev (calls s) (get_repo repo) = Return tt ->
  file_holds s n ->
  let out := __init__ repo token branch0 flag k ev s in
  snd out = Return tt
  /\ self (fst out) = {| repo_name := repo; branch := branch0; auto_commit := flag;
                         commit_interval := k; run_count := n |}
  /\ new_calls (__init__ repo token branch0 flag k) ev s = [get_repo repo]
  /\ count_file (fst out) = count_file s
  /\ in_step (fst out).
Proof.
  intros Ht Hr Hh. cbv zeta.
  pose proof (file_holds_reads s n Hh) as Hn.
  pose proof (init_run ev s repo token branch0 flag k n Ht Hr Hn) as E.
  split; [now rewrite E|]. split; [now rewrite E|].
  split; [apply new_calls_app; now rewrite E|].
  split; [now rewrite E|].
  rewrite E. exact Hn.
Qed.

(** X2: without a token (the argument [None] or empty, and [GITHUB_TOKEN]
    unset or empty) the constructor raises [ValueError] before anything
    else happens: no remote call, no log record, the counter file neither
    read nor written, the counter field left as it was. *)
Theorem init_requires_token (ev : env) (s : state) repo token branch0 flag k :
  truthy token = false ->
  truthy (getenv ev "GITHUB_TOKEN") = false ->
  let out := __init__ repo token branch0 flag k ev s in
  snd out = Raise (ValueError
    "GitHub token required. Set GITHUB_TOKEN env var or pass token param.")
  /\ calls (fst out) = calls s
  /\ logs (fst out) = logs s
  /\ count_file (fst out) = count_file s
  /\ run_count (self (fst out)) = run_count (self s).
Proof.
  intros Ht He. cbv zeta. unfold __init__. run_step.
  destruct token as [[|c t]|]; try discriminate Ht; run_step;
    destruct (getenv ev "GITHUB_TOKEN") as [[|c t]|]; try discriminate He;
    repeat split.
Qed.

(** X3: the constructor has no handler: when the platform raises on
    [get_repo], the exception, a [GithubException] included, reaches the
    caller; the counter file has not been read and nothing is logged. *)
Theorem init_repo_failure_propagates (ev : env) (s : state)
    repo token branch0 flag k e :
  truthy token = true \/ truthy (getenv ev "GITHUB_TOKEN") = true ->
  remote ev (calls s) (get_repo repo) = Raise e ->
  let out := __init__ repo token branch0 flag k ev s in
  snd out = Raise e
  /\ new_calls (__init__ repo token branch0 flag k) ev s = [get_repo repo]
  /\ run_count (self (fst out)) = run_count (self s)
  /\ logs (fst out) = logs s.
Proof.
  intros Ht Hr. cbv zeta.
  assert (E : __init__ repo token branch0 flag k ev s =
    ({| self := {| repo_name := repo; branch := branch0; auto_commit := flag;
                   commit_interval := k; run_count := run_count (self s) |};
        count_file := count_file s; calls := calls s ++ [get_repo repo];
        logs := logs s |}, Raise e)).
  { rewrite (init_with_token ev s repo token branch0 flag k Ht).
    unfold bind at 1. unfold call at 1. cbn [calls self count_file logs].
    rewrite Hr. reflexivity. }
  split; [now rewrite E|]. split; [apply new_calls_app; now rewrite E|].
  split; now rewrite E.
Qed.

(** X4: a counter file holding a plain text (ASCII, at most 640
    characters) that [int] rejects makes the constructor raise that
    [ValueError], after the repository was resolved; the file is left as it
    is. *)
Theorem init_corrupt_counter_file (ev : env) (s : state)
    repo token branch0 flag k text e :
  truthy token = true \/ truthy (getenv ev "GITHUB_TOKEN") = true ->
  remote ev (calls s) (get_repo repo) = Return tt ->
  count_file s = Some text ->
  plain_text text = true ->
  int_str text = Raise e ->
  let out := __init__ repo token branch0 flag k ev s in
  snd out = Raise e
  /\ count_file (fst out) = Some text
  /\ new_calls (__init__ repo token branch0 flag k) ev s = [get_repo repo].
Proof.
  intros Ht Hr Hf _ Hi. cbv zeta.
  assert (E : __init__ repo token branch0 flag k ev s =
    ({| self := {| repo_name := repo; branch := branch0; auto_commit := flag;
                   commit_interval := k; run_count := run_count (self s) |};
        count_file := count_file s; calls := calls s ++ [get_repo repo];
        logs := logs s |}, Raise e)).
  { rewrite (init_with_token ev s repo token branch0 flag k Ht).
    unfold bind at 1. unfold call at 1. cbn [calls self count_file logs].
    rewrite Hr. cbv iota beta. unfold bind at 1.
    unfold _load_run_count. run_step. rewrite Hf. run_step. rewrite Hi.
    reflexivity. }
  split; [now rewrite E|]. split; [now rewrite E|].
  apply new_calls_app; now rewrite E.
Qed.


(** *** The gate *)

Lemma should_commit_eq (ev : env) (s : state) :
  commit_interval (self s) <> 0 ->
  should_commit ev s =
    (s, Return (auto_commit (self s)
                && (run_count (self s) mod commit_interval (self s) =? 0))).
Proof.
  intros Hk. unfold should_commit, int_mod. run_step.
  destruct (auto_commit (self s)); [|reflexivity].
  destruct (Z.eqb_spec (commit_interval (self s)) 0) as [E0|_]; [contradiction|].
  reflexivity.
Qed.

(** X6: with auto-commit off [should_commit] is false without looking at
    the interval, an interval of 0 included; with auto-commit on and an
    interval of 0 it raises [ZeroDivisionError].  The state is untouched in
    both cases. *)
Theorem should_commit_short_circuit (ev : env) (s : state) :
  (auto_commit (self s) = false -> should_commit ev s = (s, Return false))
  /\ (auto_commit (self s) = true -> commit_interval (self s) = 0 ->
      should_commit ev s = (s, Raise (ZeroDivisionError "integer modulo by zero"))).
Proof.
  split.
  - intros Ha. unfold should_commit. run_step. now rewrite Ha.
  - intros Ha Hk. unfold should_commit, int_mod. run_step. now rewrite Ha, Hk.
Qed.

(** X7: for every interval other than 0, a negative one included,
    [should_commit] is true exactly when auto-commit is on and the interval
    divides the counter. *)
Theorem should_commit_divisibility (ev : env) (s : state) :
  commit_interval (self s) <> 0 ->
  (snd (should_commit ev s) = Return true <->
   auto_commit (self s) = true /\ (commit_interval (self s) | run_count (self s))).
Proof.
  intros Hk. rewrite (should_commit_eq ev s Hk). cbn [snd].
  rewrite <- (Z.mod_divide _ _ Hk). split.
  - intros [= H]. apply andb_true_iff in H. destruct H as [Ha Hm].
    split; [exact Ha|now apply Z.eqb_eq].
  - intros [Ha Hm]. rewrite Ha, Hm. reflexivity.
Qed.

(** *** The execution log *)

Lemma commit_execution_log_due_run (ev : env) (s : state) run_number metrics log_content :
  snd (should_commit ev s) = Return true ->
  let timestamp := isoformat (now ev) in
  let path := execution_log_path run_number timestamp in
  let q := create_file path (execution_log_message run_number metrics)
             (json_dumps (execution_log_content run_number timestamp metrics log_content))
             (branch (self s)) in
  commit_execution_log run_number metrics log_content ev s =
    match remote ev (calls s) q with
    | Return c =>
        ({| self := self s; count_file := count_file s;
            calls := (calls s ++ [q])%list;
            logs := logs s ++ [(INFO, "✅ Committed: " ++ path ++ " (SHA: "
                                      ++ prefix_slice 7 (Commit.sha c) ++ ")")] |},
         Return (Some (Commit.sha c)))
    | Raise e =>
        if is_GithubException e then
          ({| self := self s; count_file := count_file s;
              calls := (calls s ++ [q])%list;
              logs := logs s ++ [(ERROR, "❌ Commit failed: " ++ exn_str e)] |},
           Return None)
        else
          ({| self := self s; count_file := count_file s;
              calls := (calls s ++ [q])%list; logs := logs s |}, Raise e)
    end.
Proof.
  intros H. cbv zeta. unfold commit_execution_log, bind at 1.
  pose proof (should_commit_state ev s) as Hs.
  destruct (should_commit ev s) as [s1 r]; cbn [fst snd] in *; subst s1 r.
  cbv iota beta. cbn [negb]. cbv iota. run_step.
  match goal with
  | |- context [remote ev (calls s) ?q] =>
      destruct (remote ev (calls s) q) as [c|e]; [reflexivity|]
  end.
  destruct (is_GithubException e); reflexivity.
Qed.



(** X9: a controller with auto-commit on and an interval of 0 (the
    constructor accepts it) cannot log an execution: [commit_execution_log]
    raises [ZeroDivisionError], with no remote call and no log record. *)
Theorem commit_execution_log_zero_interval (ev : env) (s : state)
    (run_number : Z) (metrics : dict) (log_content : string) :
  auto_commit (self s) = true ->
  commit_interval (self s) = 0 ->
  commit_execution_log run_number metrics log_content ev s
  = (s, Raise (ZeroDivisionError "integer modulo by zero")).
Proof.
  intros Ha Hk. unfold commit_execution_log, should_commit, int_mod. run_step.
  rewrite Ha, Hk. reflexivity.
Qed.



(** *** The dashboard's fallback *)




(** *** The degradation check, beyond the failing input *)

(** X15: for a baseline other than zero and a current score below
    [baseline - threshold], exactly one remote call is made, a
    [create_issue] with the three labels and the assignee.  The title
    carries [(baseline - current) / baseline * 100] to one decimal; the body
    carries baseline and current score to four decimals and the same
    percentage to two, in the text of the source.  The issue number is
    returned, or [None] on a [GithubException]. *)
Theorem issue_requested_when_degraded (ev : env) (s : state)
    (baseline current threshold : float) :
  float_ge current (float_sub baseline threshold) = false ->
  float_is_zero baseline = false ->
  let d := float_mul (SFdiv prec emax (float_sub baseline current) baseline)
             (binary_normalize prec emax 100 0 false) in
  let title := "⚠️ Performance Degradation Detected: " ++ format_f 1 d ++ "% drop" in
  let body :=
    join_lines [
      "";
      "## 성능 저하 감지";
      "";
      "**기준 점수**: " ++ format_f 4 baseline;
      "**현재 점수**: " ++ format_f 4 current;
      "**저하율**: " ++ format_f 2 d ++ "%";
      "";
      "### 확인 필요 사항";
      "";
      "1. 최근 프롬프트 변경사항 검토";
      "2. 벤치마크 로그 확인";
      "3. 필요시 롤백 고려";
      "";
      "### 자동 조치";
      "";
      "- 시스템은 자동으로 이전 버전으로 롤백되었습니다.";
      "- 성능 로그: `logs/execution_latest.json`";
      "- 벤치마크 결과: `benchmarks/results_latest.json`";
      "";
      "---";
      "";
      "*이 이슈는 자동으로 생성되었습니다.*";
      "        " ] in
  let q := create_issue title body
             ["bug"; "auto-generated"; "priority-high"] ["GilbertKwak"] in
  let out := create_performance_issue_if_degraded baseline current threshold ev s in
  new_calls (create_performance_issue_if_degraded baseline current threshold) ev s = [q]
  /\ (forall i, remote ev (calls s) q = Return i ->
        snd out = Return (Some (Issue.number i)))
  /\ (forall t, remote ev (calls s) q = Raise (GithubException t) ->
        snd out = Return None).
Proof.
  intros Hg Hz. exact (issue_check_degraded ev s baseline current threshold Hg Hz).
Qed.

Lemma float_ge_nan_left (x : float) : float_ge S754_nan x = false.
Proof. unfold float_ge, SFleb. now destruct x. Qed.

Lemma float_ge_nan_right (x : float) : float_ge x S754_nan = false.
Proof. unfold float_ge, SFleb. now destruct x. Qed.

(** X16: a NaN is reported as a degradation.  When the baseline is NaN, or
    the current score is NaN and the baseline is not zero, the comparison
    is false and an issue titled [nan% drop] is requested, whatever the
    threshold. *)
Theorem issue_check_nan (ev : env) (s : state) (baseline current threshold : float) :
  baseline = S754_nan \/ (current = S754_nan /\ float_is_zero baseline = false) ->
  new_calls (create_performance_issue_if_degraded baseline current threshold) ev s
  = [create_issue "⚠️ Performance Degradation Detected: nan% drop"
       (issue_body baseline current S754_nan) issue_labels issue_assignees].
Proof.
  intros H.
  assert (Hg : float_ge current (float_sub baseline threshold) = false).
  { destruct H as [->|[-> _]].
    - unfold float_sub. cbn [SFsub]. apply float_ge_nan_right.
    - apply float_ge_nan_left. }
  assert (Hz : float_is_zero baseline = false).
  { destruct H as [->|[_ Hz]]; [reflexivity|exact Hz]. }
  assert (Hd : degradation_percent baseline current = S754_nan).
  { unfold degradation_percent, float_sub, float_mul.
    destruct H as [->|[-> _]].
    - reflexivity.
    - destruct baseline; reflexivity. }
  destruct (issue_check_degraded ev s baseline current threshold Hg Hz) as [Hc _].
  cbv zeta in Hc. rewrite Hd in Hc. exact Hc.
Qed.

(** X17: with a baseline of zero, of either sign, the method returns
    [None] in the no-degradation case and raises [ZeroDivisionError] in
    every other; no remote call is made in either. *)
Theorem issue_check_zero_baseline_outcome (ev : env) (s : state)
    (baseline current threshold : float) :
  float_is_zero baseline = true ->
  create_performance_issue_if_degraded baseline current threshold ev s =
    (s, if float_ge current (float_sub baseline threshold) then Return None
        else Raise (ZeroDivisionError "float division by zero")).
Proof.
  intros Hz. unfold create_performance_issue_if_degraded.
  destruct (float_ge current (float_sub baseline threshold)); [reflexivity|].
  unfold float_div. rewrite Hz. reflexivity.
Qed.

(** *** The pull request, step by step *)

Lemma snoc_calls (h l : list request) (a b : request) :
  (h ++ a :: b :: l)%list = ((h ++ [a]) ++ b :: l)%list.
Proof. now rewrite <- app_assoc. Qed.


(** X19: a string under [improvement] stops the method half way: the
    [.1f] format raises [ValueError], which the handler does not catch,
    after the branch was created and the prompt file overwritten on it; no
    pull request is opened. *)
Theorem pull_request_string_improvement (ev : env) (s : state)
    (optimized_prompt : string) (performance_improvement : dict)
    (base : Branch.t) (file : ContentFile.t) (c : Commit.t) (text : string) :
  let branch_name := "auto-optimize-" ++ strftime_compact (now ev) in
  let q1 := get_branch (branch (self s)) in
  let q2 := create_git_ref ("refs/heads/" ++ branch_name)
              (Commit.sha (Branch.commit base)) in
  let q3 := get_contents "prompts/v4.0-complete-integration.xml" branch_name in
  let q4 := update_file (ContentFile.path file) "✨ Auto-optimized prompt"
              optimized_prompt (ContentFile.sha file) branch_name in
  let op := create_optimization_pull_request optimized_prompt performance_improvement in
  dict_get performance_improvement "improvement" (PyInt 0) = PyStr text ->
  remote ev (calls s) q1 = Return base ->
  remote ev (calls s ++ [q1])%list q2 = Return tt ->
  remote ev (calls s ++ [q1; q2])%list q3 = Return file ->
  remote ev (calls s ++ [q1; q2; q3])%list q4 = Return c ->
  new_calls op ev s = [q1; q2; q3; q4]
  /\ snd (op ev s)
     = Raise (ValueError "Unknown format code 'f' for object of type 'str'").
Proof.
  cbv zeta. intros Hd E1 E2 E3 E4.
  assert (Hrun :
    create_optimization_pull_request optimized_prompt performance_improvement ev s =
    ({| self := self s; count_file := count_file s;
        calls := ((((calls s ++
          [get_branch (branch (self s))]) ++
          [create_git_ref ("refs/heads/" ++ "auto-optimize-" ++ strftime_compact (now ev))
             (Commit.sha (Branch.commit base))]) ++
          [get_contents "prompts/v4.0-complete-integration.xml"
             ("auto-optimize-" ++ strftime_compact (now ev))]) ++
          [update_file (ContentFile.path file) "✨ Auto-optimized prompt"
             optimized_prompt (ContentFile.sha file)
             ("auto-optimize-" ++ strftime_compact (now ev))])%list;
        logs := logs s |},
     Raise (ValueError "Unknown format code 'f' for object of type 'str'"))).
  { repeat rewrite snoc_calls in E3. repeat rewrite snoc_calls in E4.
    unfold create_optimization_pull_request. run_step. rewrite E1. run_step.
    rewrite E2. run_step. unfold prompt_path. rewrite E3. run_step.
    rewrite E4. run_step. rewrite Hd. reflexivity. }
  split; [apply new_calls_app|]; rewrite Hrun; cbn [fst snd calls];
    rewrite <- ?app_assoc; reflexivity.
Qed.

(** *** Sequences of calls on one controller *)

Lemma perform_other (c : command) (ev : env) (s : state) :
  is_increment c = false ->
  self (perform c ev s) = self s /\ count_file (perform c ev s) = count_file s.
Proof.
  destruct c; cbn [is_increment perform]; intros H; try discriminate H.
  - apply keeps_should_commit.
  - apply keeps_commit_execution_log.
  - apply keeps_commit_benchmark_results.
  - apply keeps_update_performance_dashboard.
  - apply keeps_create_performance_issue_if_degraded.
  - apply keeps_create_optimization_pull_request.
Qed.

(** X20: over any sequence of method calls on a controller, whatever the
    platform answers and whichever calls raise, the counter ends at its
    start value plus the number of [increment_run] calls, and repository,
    branch, auto-commit flag and interval are the ones it started with. *)
Theorem perform_all_counts_increments (cs : list command) (ev : env) :
  forall s : state,
    let o := self s in
    let o' := self (perform_all cs ev s) in
    run_count o' = run_count o + Z.of_nat (length (filter is_increment cs))
    /\ repo_name o' = repo_name o /\ branch o' = branch o
    /\ auto_commit o' = auto_commit o /\ commit_interval o' = commit_interval o.
Proof.
  induction cs as [|c rest IH]; intros s; cbv zeta.
  - cbn. rewrite Z.add_0_r. repeat split.
  - cbn [perform_all filter]. specialize (IH (perform c ev s)). cbv zeta in IH.
    destruct IH as (Hn & Hr & Hb & Ha & Hk).
    destruct (is_increment c) eqn:Hc.
    + destruct c; try discriminate Hc. cbn [perform] in *.
      rewrite increment_run_eq in *. cbn [fst self run_count repo_name branch
        auto_commit commit_interval] in *.
      rewrite Hn, Hr, Hb, Ha, Hk. cbn [length].
      repeat split. lia.
    + destruct (perform_other c ev s Hc) as [Hs _]. rewrite Hs in *.
      repeat split; assumption.
Qed.


(** *** The script *)

Lemma appends_ret {A} (a : A) : appends_calls (ret a).
Proof. intros ev s. exists []. cbn. now rewrite app_nil_r. Qed.

Lemma appends_lift {A} (r : result A) : appends_calls (lift r).
Proof. intros ev s. exists []. cbn. now rewrite app_nil_r. Qed.

Lemma appends_get_self : appends_calls get_self.
Proof. intros ev s. exists []. cbn. now rewrite app_nil_r. Qed.

Lemma appends_datetime_now : appends_calls datetime_now.
Proof. intros ev s. exists []. cbn. now rewrite app_nil_r. Qed.

Lemma appends_logger (l : level) (msg : string) : appends_calls (logger l msg).
Proof. intros ev s. exists []. cbn. now rewrite app_nil_r. Qed.

Lemma appends_call (q : request) : appends_calls (call q).
Proof. intros ev s. exists [q]. reflexivity. Qed.

Lemma appends_bind {A B} (c : M A) (k : A -> M B) :
  appends_calls c -> (forall a, appends_calls (k a)) -> appends_calls (bind c k).
Proof.
  intros Hc Hk ev s. unfold bind. destruct (Hc ev s) as [l1 H1].
  destruct (c ev s) as [s1 [a|e]]; cbn [fst] in *.
  - destruct (Hk a ev s1) as [l2 H2]. exists (l1 ++ l2)%list.
    now rewrite H2, H1, app_assoc.
  - exists l1. exact H1.
Qed.

Lemma appends_try_except {A} (body : M A) (catches : exn -> bool) (h : exn -> M A) :
  appends_calls body -> (forall e, appends_calls (h e)) ->
  appends_calls (try_except body catches h).
Proof.
  intros Hb Hh ev s. unfold try_except. destruct (Hb ev s) as [l1 H1].
  destruct (body ev s) as [s1 [a|e]]; cbn [fst] in *.
  - exists l1. exact H1.
  - destruct (catches e); cbn [fst].
    + destruct (Hh e ev s1) as [l2 H2]. exists (l1 ++ l2)%list.
      now rewrite H2, H1, app_assoc.
    + exists l1. exact H1.
Qed.

Create HintDb appends discriminated.
#[local] Hint Resolve appends_ret appends_lift appends_get_self
  appends_datetime_now appends_logger appends_call : appends.

Ltac appends :=
  repeat first
    [ apply appends_bind; [|intro]
    | apply appends_try_except; [|intro]
    | solve [auto with appends]
    | exact (appends_call _)
    | progress cbv zeta
    | match goal with
      | |- appends_calls (if ?b then _ else _) => destruct b
      end ].

Lemma appends_update_performance_dashboard (metrics : dict) :
  appends_calls (update_performance_dashboard metrics).
Proof. unfold update_performance_dashboard. appends. Qed.

Lemma bind_return {A B} (c : M A) (k : A -> M B) ev s s' a :
  c ev s = (s', Return a) -> bind c k ev s = k a ev s'.
Proof. intros H. unfold bind. now rewrite H. Qed.

Lemma main_steps (ev : env) (s : state) (n : Z) :
  truthy (getenv ev "GITHUB_TOKEN") = true ->
  remote ev (calls s) (get_repo main_repo) = Return tt ->
  file_reads s n ->
  main ev s =
    ((if (n + 1) mod 10 =? 0 then
        commit_execution_log (n + 1) test_metrics "Test execution" ;;;
        update_performance_dashboard test_metrics ;;;
        ret tt
      else ret tt) ;;;
     ret "✅ GitHub sync test completed!") ev
      {| self := {| repo_name := main_repo; branch := "main"; auto_commit := true;
                    commit_interval := 10; run_count := n + 1 |};
         count_file := Some (str_int (n + 1));
         calls := calls s ++ [get_repo main_repo];
         logs := (logs s ++ [(INFO, "✅ GitHub Sync initialized: " ++ main_repo
                                    ++ " (branch: " ++ "main" ++ ")")])
                 ++ [(INFO, "📊 Run #" ++ str_int (n + 1))] |}.
Proof.
  intros Ht Hr Hn. unfold main.
  rewrite (bind_return _ _ ev s _ tt
             (init_run ev s main_repo None "main" true 10 n (or_intror Ht) Hr Hn)).
  rewrite (bind_return _ _ ev _ _ _ (increment_run_eq ev _)).
  cbn [self run_count repo_name branch auto_commit commit_interval
       count_file calls logs].
  match goal with
  | |- bind should_commit _ ev ?s2 = _ =>
      assert (Hk : commit_interval (self s2) <> 0) by (cbn; lia);
      rewrite (bind_return _ _ ev s2 _ _ (should_commit_eq ev s2 Hk))
  end.
  reflexivity.
Qed.

(** X22: one run of the script.  With a token in [GITHUB_TOKEN], the
    repository resolved and the counter file holding [n] (absent with [n]
    0, or a plain text, ASCII of at most 640 characters, that [int] reads
    as [n]), the script
    leaves the counter file at [n + 1]; when 10 does not divide [n + 1] its
    only remote call is the [get_repo] of the constructor and it prints its
    closing line; when 10 divides [n + 1] the next call is the [create_file]
    of the execution log of run [n + 1] on branch [main]. *)
Theorem main_run (ev : env) (s : state) (n : Z) :
  truthy (getenv ev "GITHUB_TOKEN") = true ->
  remote ev (calls s) (get_repo main_repo) = Return tt ->
  file_holds s n ->
  let out := main ev s in
  count_file (fst out) = Some (str_int (n + 1))
  /\ run_count (self (fst out)) = n + 1
  /\ ((n + 1) mod 10 <> 0 ->
      new_calls main ev s = [get_repo main_repo]
      /\ snd out = Return "✅ GitHub sync test completed!")
  /\ ((n + 1) mod 10 = 0 ->
      firstn 2 (new_calls main ev s) =
        [get_repo main_repo;
         create_file (execution_log_path (n + 1) (isoformat (now ev)))
           (execution_log_message (n + 1) test_metrics)
           (json_dumps (execution_log_content (n + 1) (isoformat (now ev))
                          test_metrics "Test execution"))
           "main"]).
Proof.
  intros Ht Hr Hh. cbv zeta.
  pose proof (file_holds_reads s n Hh) as Hn.
  pose proof (main_steps ev s n Ht Hr Hn) as E.
  set (s2 := {| self := _; count_file := _; calls := _; logs := _ |}) in E.
  set (tail := bind _ _) in E.
  assert (Hkeep : keeps_fields tail).
  { subst tail. keeps. }
  destruct (Hkeep ev s2) as [Hself Hfile]. rewrite <- E in Hself, Hfile.
  split; [exact Hfile|]. split; [now rewrite Hself|].
  split.
  - intros Hm. apply Z.eqb_neq in Hm.
    split; [apply new_calls_app|]; rewrite E; subst tail; rewrite Hm; reflexivity.
  - intros Hm. unfold new_calls. rewrite E. subst tail.
    rewrite Hm, Z.eqb_refl.
    assert (Hdue : snd (should_commit ev s2) = Return true).
    { rewrite should_commit_eq by (cbn; lia). unfold s2.
      cbn [snd self auto_commit run_count commit_interval andb]. now rewrite Hm. }
    pose proof (commit_execution_log_due_run ev s2 (n + 1) test_metrics
                  "Test execution" Hdue) as Hc.
    cbv zeta in Hc.
    set (q := create_file _ _ _ _) in Hc.
    assert (Hcalls : exists l,
      calls (fst ((commit_execution_log (n + 1) test_metrics "Test execution" ;;;
                   update_performance_dashboard test_metrics ;;; ret tt) ev s2))
      = ((calls s ++ [get_repo main_repo]) ++ q :: l)%list).
    { unfold bind at 1. rewrite Hc.
      destruct (remote ev (calls s2) q) as [c|e].
      - match goal with
        | |- context [bind ?c ?k ev ?s3] =>
            destruct (appends_bind c k (appends_update_performance_dashboard _)
                        (fun _ => appends_ret tt) ev s3) as [l Hl]
        end.
        exists l. rewrite Hl. cbn [calls]. now rewrite <- app_assoc.
      - destruct (is_GithubException e).
        + match goal with
          | |- context [bind ?c ?k ev ?s3] =>
              destruct (appends_bind c k (appends_update_performance_dashboard _)
                          (fun _ => appends_ret tt) ev s3) as [l Hl]
          end.
          exists l. rewrite Hl. cbn [calls]. now rewrite <- app_assoc.
        + exists []. reflexivity. }
    destruct Hcalls as [l Hl].
    unfold bind at 1.
    destruct ((commit_execution_log (n + 1) test_metrics "Test execution" ;;;
               update_performance_dashboard test_metrics ;;; ret tt) ev s2)
      as [s3 [u|e]]; cbn [fst] in *; unfold ret; cbn [fst];
      rewrite Hl, <- app_assoc, skipn_length_app; reflexivity.
Qed.

End Methods.

(* ================================================================= *)
(** ** Concrete runs *)

Lemma should_commit_spec_witness :
  0 < commit_interval (self (Sample.controller true 10 20))
  /\ should_commit (Sample.world Sample.accepting) (Sample.controller true 10 20)
     = (Sample.controller true 10 20, Return true).
Proof.
  split; [reflexivity|].
  exact (proj1 (should_commit_spec (Sample.world Sample.accepting)
                  (Sample.controller true 10 20) eq_refl)).
Defined.


Lemma increment_run_m_times_witness :
  run_count (self (Sample.controller true 10 0)) = 0
  /\ snd (increment_runs 3 (Sample.world Sample.accepting) (Sample.controller true 10 0))
     = Return [1; 2; 3]
  /\ run_count (self (fst (increment_runs 3 (Sample.world Sample.accepting)
                             (Sample.controller true 10 0)))) = 3.
Proof.
  split; [reflexivity|].
  pose proof (increment_run_m_times (Sample.world Sample.accepting)
                (Sample.controller true 10 0) 3 eq_refl eq_refl) as H.
  cbv zeta in H. destruct H as (Hr & Hc & _).
  split; [exact Hr|exact Hc].
Defined.

Lemma remote_writes_gated_witness :
  let ev := Sample.world Sample.accepting in
  let s := Sample.controller true 10 20 in
  (exists q, In q (new_calls (commit_execution_log Sample.repr6 Sample.dumps0 20 [] "")
                     ev s) /\ is_write q = true)
  /\ auto_commit (self s) = true
  /\ run_count (self s) mod commit_interval (self s) = 0.
Proof.
  cbv zeta.
  assert (Hin : exists q,
    In q (new_calls (commit_execution_log Sample.repr6 Sample.dumps0 20 [] "")
            (Sample.world Sample.accepting) (Sample.controller true 10 20))
    /\ is_write q = true).
  { vm_compute. eexists. split; [left; reflexivity|reflexivity]. }
  split; [exact Hin|].
  destruct Hin as (q & Hin & Hw).
  destruct (remote_writes_gated Sample.repr6 Sample.dumps0) as (_ & _ & H).
  exact (H 20 [] "" _ _ q Hin Hw).
Defined.

(** C3 as stated fails: with auto-commit off and the counter at 3 of 10,
    [commit_benchmark_results] asks the platform to create a file. *)
Lemma benchmark_commit_not_gated :
  ~ (forall results,
       write_gated (commit_benchmark_results Sample.repr6 Sample.dumps0 results)).
Proof.
  intros H.
  assert (Hin : exists q,
    In q (new_calls (commit_benchmark_results Sample.repr6 Sample.dumps0 [])
            (Sample.world Sample.accepting) (Sample.controller false 10 3))
    /\ is_write q = true).
  { vm_compute. eexists. split; [left; reflexivity|reflexivity]. }
  destruct Hin as (q & Hin & Hw).
  destruct (H [] _ _ q Hin Hw) as [Ha _]. discriminate Ha.
Qed.

Lemma dashboard_update_not_gated :
  ~ (forall metrics, write_gated (update_performance_dashboard Sample.repr6 metrics)).
Proof.
  intros H.
  assert (Hin : exists q,
    In q (new_calls (update_performance_dashboard Sample.repr6 [])
            (Sample.world Sample.accepting) (Sample.controller false 10 3))
    /\ is_write q = true).
  { vm_compute. eexists. split; [right; left; reflexivity|reflexivity]. }
  destruct Hin as (q & Hin & Hw).
  destruct (H [] _ _ q Hin Hw) as [Ha _]. discriminate Ha.
Qed.

Lemma issue_creation_not_gated :
  ~ (forall baseline current threshold,
       write_gated (create_performance_issue_if_degraded baseline current threshold)).
Proof.
  intros H.
  assert (Hin : exists q,
    In q (new_calls (create_performance_issue_if_degraded
                       (float_lit 1 1) (float_lit 90 100) (float_lit 5 100))
            (Sample.world Sample.accepting) (Sample.controller false 10 3))
    /\ is_write q = true).
  { vm_compute. eexists. split; [left; reflexivity|reflexivity]. }
  destruct Hin as (q & Hin & Hw).
  destruct (H _ _ _ _ _ q Hin Hw) as [Ha _]. discriminate Ha.
Qed.

Lemma pull_request_not_gated :
  ~ (forall optimized_prompt performance_improvement,
       write_gated (create_optimization_pull_request Sample.repr6 optimized_prompt
                      performance_improvement)).
Proof.
  intros H.
  assert (Hin : exists q,
    In q (new_calls (create_optimization_pull_request Sample.repr6 "<prompt/>" [])
            (Sample.world Sample.accepting) (Sample.controller false 10 3))
    /\ is_write q = true).
  { vm_compute. eexists. split; [right; left; reflexivity|reflexivity]. }
  destruct Hin as (q & Hin & Hw).
  destruct (H _ _ _ _ q Hin Hw) as [Ha _]. discriminate Ha.
Qed.





Lemma pull_request_stops_at_failed_step_witness :
  let ev := Sample.world (Sample.refusing Sample.is_create_git_ref
                            (GithubException "422 Reference already exists")) in
  let s := Sample.controller true 10 20 in
  let q1 := get_branch "main" in
  let q2 := create_git_ref "refs/heads/auto-optimize-20240115_103000" "c4e8a0d1" in
  let op := create_optimization_pull_request Sample.repr6 "<prompt/>" [] in
  remote ev (calls s ++ [q1])%list q2
    = Raise (GithubException "422 Reference already exists")
  /\ new_calls op ev s = [q1; q2]
  /\ snd (op ev s) = Return None.
Proof.
  cbv zeta. split; [reflexivity|].
  pose proof (pull_request_stops_at_failed_step Sample.repr6
                (Sample.world (Sample.refusing Sample.is_create_git_ref
                                 (GithubException "422 Reference already exists")))
                (Sample.controller true 10 20) "<prompt/>" []) as H.
  cbv zeta in H. destruct H as (H & _).
  exact (H _ _ eq_refl eq_refl).
Defined.

(** C7 as stated fails: when [create_git_ref] fails with an exception that
    is no [GithubException], the method makes no further call but does not
    return [None]; the exception reaches the caller. *)
Lemma pull_request_other_failure_raises :
  let ev := Sample.world (Sample.refusing Sample.is_create_git_ref
                            (OtherException "ConnectionError")) in
  let s := Sample.controller true 10 20 in
  let q1 := get_branch "main" in
  let q2 := create_git_ref "refs/heads/auto-optimize-20240115_103000" "c4e8a0d1" in
  let op := create_optimization_pull_request Sample.repr6 "<prompt/>" [] in
  remote ev (calls s ++ [q1])%list q2 = Raise (OtherException "ConnectionError")
  /\ new_calls op ev s = [q1; q2]
  /\ snd (op ev s) <> Return None.
Proof. cbv zeta. split; [reflexivity|]. split; [reflexivity|]. discriminate. Qed.

(** A run with every call accepted: six calls, in the order of the source. *)
Example pull_request_accepted :
  let ev := Sample.world Sample.accepting in
  let s := Sample.controller true 10 20 in
  let op := create_optimization_pull_request Sample.repr6 "<prompt/>"
              [("improvement", PyFloat (float_lit 125 10))] in
  map is_write (new_calls op ev s) = [false; true; false; true; true; true]
  /\ snd (op ev s) = Return (Some 7)
  /\ nth_error (new_calls op ev s) 4
     = Some (create_pull "✨ Auto-optimized prompt: 12.5% better"
               (pull_body Sample.repr6 [("improvement", PyFloat (float_lit 125 10))])
               "auto-optimize-20240115_103000" "main").
Proof. vm_compute. repeat split. Qed.

(** A mapping whose [improvement] is a string stops the method between the
    file update and the pull request, with an exception that is no
    [GithubException]. *)
Example pull_request_format_error :
  let ev := Sample.world Sample.accepting in
  let s := Sample.controller true 10 20 in
  let op := create_optimization_pull_request Sample.repr6 "<prompt/>"
              [("improvement", PyStr "12%")] in
  length (new_calls op ev s) = 4%nat
  /\ snd (op ev s)
     = Raise (ValueError "Unknown format code 'f' for object of type 'str'").
Proof. vm_compute. split; reflexivity. Qed.

(** Construction with a token and no counter file starts the counter at 0. *)
Example init_fresh :
  let blank := Sample.controller false 0 0 in
  let out := __init__ "GilbertKwak/ai-multiagent-framework-v4" (Some "ghp_token")
               "main" true 10 (Sample.world Sample.accepting) blank in
  snd out = Return tt
  /\ self (fst out) = self (Sample.controller true 10 0)
  /\ count_file (fst out) = None.
Proof. vm_compute. repeat split. Qed.

(** Without a token, in argument or environment, construction raises. *)
Example init_without_token :
  snd (__init__ "GilbertKwak/ai-multiagent-framework-v4" None "main" true 10
         (Sample.world Sample.accepting) (Sample.controller false 0 0))
  = Raise (ValueError
      "GitHub token required. Set GITHUB_TOKEN env var or pass token param.").
Proof. reflexivity. Qed.

(** Other ways out of a method with an exception: an interval of 0 with
    auto-commit on, and a platform failure that is no [GithubException]. *)
Example should_commit_zero_interval :
  snd (should_commit (Sample.world Sample.accepting) (Sample.controller true 0 5))
  = Raise (ZeroDivisionError "integer modulo by zero").
Proof. reflexivity. Qed.

Example benchmark_commit_network_error :
  snd (commit_benchmark_results Sample.repr6 Sample.dumps0 []
         (Sample.world (Sample.refusing is_write (OtherException "ConnectionError")))
         (Sample.controller true 10 20))
  = Raise (OtherException "ConnectionError").
Proof. reflexivity. Qed.

(* ================================================================= *)
(** ** Concrete runs of the further properties *)

Lemma init_success_witness :
  let ev := Sample.world Sample.accepting in
  let s := Sample.controller false 0 12 in
  (truthy (Some "ghp_token") = true \/ truthy (getenv ev "GITHUB_TOKEN") = true)
  /\ file_holds s 12
  /\ self (fst (__init__ main_repo (Some "ghp_token") "main" true 10 ev s))
     = {| repo_name := main_repo; branch := "main"; auto_commit := true;
          commit_interval := 10; run_count := 12 |}.
Proof.
  cbv zeta. split; [left; reflexivity|]. split; [split; reflexivity|].
  pose proof (init_success (Sample.world Sample.accepting)
                (Sample.controller false 0 12) main_repo (Some "ghp_token") "main"
                true 10 12 (or_introl eq_refl) eq_refl (conj eq_refl eq_refl)) as H.
  cbv zeta in H. exact (proj1 (proj2 H)).
Defined.

Lemma init_requires_token_witness :
  let ev := Sample.world Sample.accepting in
  let s := Sample.controller false 0 12 in
  truthy (Some "") = false
  /\ truthy (getenv ev "GITHUB_TOKEN") = false
  /\ calls (fst (__init__ main_repo (Some "") "main" true 10 ev s)) = calls s.
Proof.
  cbv zeta. split; [reflexivity|]. split; [reflexivity|].
  pose proof (init_requires_token (Sample.world Sample.accepting)
                (Sample.controller false 0 12) main_repo (Some "") "main" true 10
                eq_refl eq_refl) as H.
  cbv zeta in H. exact (proj1 (proj2 H)).
Defined.

Lemma init_repo_failure_propagates_witness :
  let ev := Sample.world
              (Sample.refusing
                 (fun q => match q with get_repo _ => true | _ => false end)
                 Sample.not_found) in
  let s := Sample.controller false 0 12 in
  remote ev (calls s) (get_repo main_repo) = Raise Sample.not_found
  /\ snd (__init__ main_repo (Some "ghp_token") "main" true 10 ev s)
     = Raise Sample.not_found.
Proof.
  cbv zeta. split; [reflexivity|].
  pose proof (init_repo_failure_propagates
                (Sample.world
                   (Sample.refusing
                      (fun q => match q with get_repo _ => true | _ => false end)
                      Sample.not_found))
                (Sample.controller false 0 12) main_repo (Some "ghp_token") "main"
                true 10 Sample.not_found (or_introl eq_refl) eq_refl) as H.
  cbv zeta in H. exact (proj1 H).
Defined.

Lemma init_corrupt_counter_file_witness :
  let ev := Sample.world Sample.accepting in
  let s := {| self := self (Sample.controller false 0 0);
              count_file := Some "ten"; calls := []; logs := [] |} in
  plain_text "ten" = true
  /\ int_str "ten" = Raise (ValueError "invalid literal for int() with base 10: 'ten'")
  /\ snd (__init__ main_repo (Some "ghp_token") "main" true 10 ev s)
     = Raise (ValueError "invalid literal for int() with base 10: 'ten'").
Proof.
  cbv zeta. split; [reflexivity|]. split; [reflexivity|].
  pose proof (init_corrupt_counter_file (Sample.world Sample.accepting)
                {| self := self (Sample.controller false 0 0);
                   count_file := Some "ten"; calls := []; logs := [] |}
                main_repo (Some "ghp_token") "main" true 10 "ten" _
                (or_introl eq_refl) eq_refl eq_refl eq_refl eq_refl) as H.
  cbv zeta in H. exact (proj1 H).
Defined.


Lemma should_commit_short_circuit_witness :
  let ev := Sample.world Sample.accepting in
  (auto_commit (self (Sample.controller false 0 5)) = false
   /\ should_commit ev (Sample.controller false 0 5)
      = (Sample.controller false 0 5, Return false))
  /\ (auto_commit (self (Sample.controller true 0 5)) = true
      /\ commit_interval (self (Sample.controller true 0 5)) = 0
      /\ should_commit ev (Sample.controller true 0 5)
         = (Sample.controller true 0 5,
            Raise (ZeroDivisionError "integer modulo by zero"))).
Proof.
  cbv zeta. split.
  - split; [reflexivity|].
    exact (proj1 (should_commit_short_circuit (Sample.world Sample.accepting)
                    (Sample.controller false 0 5)) eq_refl).
  - split; [reflexivity|]. split; [reflexivity|].
    exact (proj2 (should_commit_short_circuit (Sample.world Sample.accepting)
                    (Sample.controller true 0 5)) eq_refl eq_refl).
Defined.

Lemma should_commit_divisibility_witness :
  let ev := Sample.world Sample.accepting in
  let s := Sample.controller true (-5) 20 in
  commit_interval (self s) <> 0
  /\ snd (should_commit ev s) = Return true.
Proof.
  cbv zeta. split; [discriminate|].
  apply (should_commit_divisibility (Sample.world Sample.accepting)
           (Sample.controller true (-5) 20)); [discriminate|].
  split; [reflexivity|]. exists (-4). reflexivity.
Defined.


Lemma commit_execution_log_zero_interval_witness :
  let s := Sample.controller true 0 5 in
  auto_commit (self s) = true
  /\ commit_interval (self s) = 0
  /\ snd (commit_execution_log Sample.repr6 Sample.dumps0 5 [] ""
            (Sample.world Sample.accepting) s)
     = Raise (ZeroDivisionError "integer modulo by zero").
Proof.
  cbv zeta. split; [reflexivity|]. split; [reflexivity|].
  rewrite (commit_execution_log_zero_interval Sample.repr6 Sample.dumps0
             (Sample.world Sample.accepting) (Sample.controller true 0 5) 5 [] ""
             eq_refl eq_refl).
  reflexivity.
Defined.





Lemma github_exceptions_contained_witness :
  let ev := Sample.world (Sample.refusing is_write (OtherException "ConnectionError")) in
  let s := Sample.controller true 10 20 in
  snd (commit_benchmark_results Sample.repr6 Sample.dumps0 [] ev s)
    = Raise (OtherException "ConnectionError")
  /\ is_GithubException (OtherException "ConnectionError") = false.
Proof.
  cbv zeta. split; [reflexivity|].
  destruct (github_exceptions_contained Sample.repr6 Sample.dumps0)
    as (_ & _ & _ & H & _).
  exact (H [] (Sample.world (Sample.refusing is_write
                               (OtherException "ConnectionError")))
           (Sample.controller true 10 20) _ eq_refl).
Defined.

Lemma issue_requested_when_degraded_witness :
  let ev := Sample.world Sample.accepting in
  let s := Sample.controller false 10 3 in
  let baseline := float_lit 94 100 in
  let current := float_lit 80 100 in
  let threshold := float_lit 5 100 in
  float_ge current (float_sub baseline threshold) = false
  /\ float_is_zero baseline = false
  /\ snd (create_performance_issue_if_degraded baseline current threshold ev s)
     = Return (Some 42).
Proof.
  cbv zeta. split; [vm_compute; reflexivity|]. split; [reflexivity|].
  assert (Hg : float_ge (float_lit 80 100)
                 (float_sub (float_lit 94 100) (float_lit 5 100)) = false)
    by (vm_compute; reflexivity).
  pose proof (issue_requested_when_degraded (Sample.world Sample.accepting)
                (Sample.controller false 10 3) (float_lit 94 100) (float_lit 80 100)
                (float_lit 5 100) Hg eq_refl) as H.
  cbv zeta in H. destruct H as (_ & Hok & _).
  exact (Hok _ eq_refl).
Defined.

Lemma issue_check_nan_witness :
  let ev := Sample.world Sample.accepting in
  let s := Sample.controller false 10 3 in
  (float_lit 94 100 = S754_nan
   \/ (S754_nan = S754_nan /\ float_is_zero (float_lit 94 100) = false))
  /\ length (new_calls (create_performance_issue_if_degraded (float_lit 94 100)
                          S754_nan (float_lit 5 100)) ev s) = 1%nat.
Proof.
  cbv zeta. split; [right; split; reflexivity|].
  rewrite (issue_check_nan (Sample.world Sample.accepting)
             (Sample.controller false 10 3) (float_lit 94 100) S754_nan
             (float_lit 5 100) (or_intror (conj eq_refl eq_refl))).
  reflexivity.
Defined.

Lemma issue_check_zero_baseline_outcome_witness :
  let ev := Sample.world Sample.accepting in
  let s := Sample.controller false 10 3 in
  float_is_zero (S754_zero true) = true
  /\ create_performance_issue_if_degraded (S754_zero true) (float_lit (-1) 1)
       (float_lit 5 100) ev s
     = (s, Raise (ZeroDivisionError "float division by zero"))
  /\ create_performance_issue_if_degraded (S754_zero true) (float_lit 1 1)
       (float_lit 5 100) ev s
     = (s, Return None).
Proof.
  cbv zeta. split; [reflexivity|]. split.
  - exact (issue_check_zero_baseline_outcome (Sample.world Sample.accepting)
             (Sample.controller false 10 3) (S754_zero true) (float_lit (-1) 1)
             (float_lit 5 100) eq_refl).
  - exact (issue_check_zero_baseline_outcome (Sample.world Sample.accepting)
             (Sample.controller false 10 3) (S754_zero true) (float_lit 1 1)
             (float_lit 5 100) eq_refl).
Defined.

(** The call of the module's docstring, baseline 0.94 and current 0.89 with
    the default threshold: in binary64 [0.94 - 0.05] is just below [0.89],
    so this is no degradation and nothing is requested. *)
Example issue_check_docstring_call :
  create_performance_issue_if_degraded (float_lit 94 100) (float_lit 89 100)
    (float_lit 5 100) (Sample.world Sample.accepting) (Sample.controller false 10 3)
  = (Sample.controller false 10 3, Return None).
Proof. vm_compute. reflexivity. Qed.


Lemma pull_request_string_improvement_witness :
  let ev := Sample.world Sample.accepting in
  let s := Sample.controller false 10 3 in
  let op := create_optimization_pull_request Sample.repr6 "<prompt/>"
              [("improvement", PyStr "12%")] in
  dict_get [("improvement", PyStr "12%")] "improvement" (PyInt 0) = PyStr "12%"
  /\ map is_write (new_calls op ev s) = [false; true; false; true]
  /\ snd (op ev s)
     = Raise (ValueError "Unknown format code 'f' for object of type 'str'").
Proof.
  cbv zeta. split; [reflexivity|].
  pose proof (pull_request_string_improvement Sample.repr6
                (Sample.world Sample.accepting) (Sample.controller false 10 3)
                "<prompt/>" [("improvement", PyStr "12%")]
                {| Branch.commit := {| Commit.sha := "c4e8a0d1" |} |}
                {| ContentFile.path := "prompts/v4.0-complete-integration.xml";
                   ContentFile.decoded_content := Sample.table;
                   ContentFile.sha := "9b1d7e22" |}
                {| Commit.sha := "77aa01bc93de5512" |} "12%"
                eq_refl eq_refl eq_refl eq_refl eq_refl) as H.
  cbv zeta in H. destruct H as (Hc & Hr).
  split; [rewrite Hc; reflexivity|exact Hr].
Defined.


Lemma main_run_witness :
  let ev := {| remote := Sample.accepting; now := Sample.clock;
               getenv := fun _ => Some "ghp_token" |} in
  (truthy (getenv ev "GITHUB_TOKEN") = true
   /\ file_holds (Sample.controller false 0 8) 8
   /\ new_calls (main Sample.repr6 Sample.dumps0) ev (Sample.controller false 0 8)
      = [get_repo main_repo])
  /\ (file_holds (Sample.controller false 0 9) 9
      /\ map is_write
           (firstn 2 (new_calls (main Sample.repr6 Sample.dumps0) ev
                        (Sample.controller false 0 9)))
         = [false; true]
      /\ count_file (fst (main Sample.repr6 Sample.dumps0 ev
                            (Sample.controller false 0 9))) = Some "10").
Proof.
  cbv zeta.
  pose proof (main_run Sample.repr6 Sample.dumps0
                {| remote := Sample.accepting; now := Sample.clock;
                   getenv := fun _ => Some "ghp_token" |}
                (Sample.controller false 0 8) 8 eq_refl eq_refl
                (conj eq_refl eq_refl)) as H8.
  pose proof (main_run Sample.repr6 Sample.dumps0
                {| remote := Sample.accepting; now := Sample.clock;
                   getenv := fun _ => Some "ghp_token" |}
                (Sample.controller false 0 9) 9 eq_refl eq_refl
                (conj eq_refl eq_refl)) as H9.
  cbv zeta in H8, H9.
  destruct H8 as (_ & _ & H8 & _). destruct H9 as (Hf & _ & _ & H9).
  split.
  - split; [reflexivity|]. split; [split; reflexivity|].
    apply H8. discriminate.
  - split; [split; reflexivity|]. split; [|exact Hf].
    rewrite (H9 eq_refl). reflexivity.
Defined.
